(** * kube-vip: the IPVS load balancer (pkg/loadbalancer/ipvs.go)

    A shallow embedding of [NewIPVSLB], [RemoveIPVSLB], [AddBackend] and
    [RemoveBackend].  The Go code talks to the kernel through the
    [ipvs.Client] interface; here the interface is a type class over the
    state of whatever stands behind the client, and every call threads that
    state explicitly.  A Go [error] is [option string]: [None] is [nil] and
    [Some m] is an error whose [Error()] text is [m]. *)

From Stdlib Require Import ZArith List String Ascii Bool Lia.
Import ListNotations.

Local Open Scope string_scope.
Local Open Scope Z_scope.

Definition error : Type := option string.

(** ** Fragments of the Go standard library used by the file *)

Module strings.

(** [strings.Contains s substr]: does [substr] occur in [s]? *)
Fixpoint Contains (s substr : string) : bool :=
  String.prefix substr s ||
  match s with
  | EmptyString => false
  | String _ s' => Contains s' substr
  end.

End strings.

Module fmt.

(** [fmt.Errorf(prefix + "%v", err)] for the one shape the file uses: a
    fixed text followed by the text of the wrapped error. *)
Definition Errorf (prefix : string) (err : string) : error :=
  Some (prefix ++ err).

End fmt.

(** [uint16(port)] on a Go [int]: the low sixteen bits. *)
Definition uint16 (port : Z) : Z := port mod 65536.

Module net.

(** A [net.IP] is a byte slice; [nil] is the empty list. *)
Definition IP : Type := list Z.

Definition IPv4len : nat := 4.
Definition IPv6len : nat := 16.

Definition isZeros (p : list Z) : bool := forallb (Z.eqb 0) p.

(** [ip.To4()]: the four-byte form of an IPv4 address (also when it is
    stored as an IPv4-mapped sixteen-byte value), [nil] otherwise. *)
Definition To4 (ip : IP) : IP :=
  if Nat.eqb (List.length ip) IPv4len then ip
  else if Nat.eqb (List.length ip) IPv6len
          && isZeros (firstn 10 ip)
          && Z.eqb (nth 10 ip 0) 255
          && Z.eqb (nth 11 ip 0) 255
       then skipn 12 ip
       else [].

End net.

(** ** The ipvs package, as far as the file uses it *)

Module ipvs.

(** The package's numeric enumerations.  [AddressFamily] and [Protocol]
    carry the kernel's socket constants; [ForwardType] counts from zero,
    so the zero value of a [Destination]'s [FwdMethod] is [Masquarade]. *)
Definition AddressFamily : Type := Z.
Definition INET : AddressFamily := 2.
Definition INET6 : AddressFamily := 10.

Definition Protocol : Type := Z.
Definition TCP : Protocol := 6.
Definition UDP : Protocol := 17.

Definition ForwardType : Type := Z.
Definition Masquarade : ForwardType := 0.
Definition Local : ForwardType := 1.
Definition Tunnel : ForwardType := 2.
Definition DirectRoute : ForwardType := 3.
Definition Bypass : ForwardType := 4.

(** An [ipvs.IP] is a fixed array of sixteen bytes. *)
Definition IP : Type := list Z.

(** The fields of [ipvs.Service] that the file sets; the others keep
    their zero value in every descriptor built here. *)
Module Service.
Record t : Type := mk {
  Family : AddressFamily;
  Protocol : ipvs.Protocol;
  Port : Z;
  Address : IP;
  Scheduler : string
}.
End Service.

(** The fields of [ipvs.Destination] that the file sets. *)
Module Destination.
Record t : Type := mk {
  Address : IP;
  Port : Z;
  Family : AddressFamily;
  Weight : Z;
  FwdMethod : ForwardType
}.
End Destination.

(** The [ipvs.Client] interface, with [ipvs.New] as its constructor.
    [K] is the state behind the client (the kernel's table, a script of
    canned answers, ...); each call returns its [error] and the new
    state. *)
Class Client (K : Type) : Type := {
  New : K -> error * K;
  CreateService : Service.t -> K -> error * K;
  RemoveService : Service.t -> K -> error * K;
  CreateDestination : Service.t -> Destination.t -> K -> error * K;
  RemoveDestination : Service.t -> Destination.t -> K -> error * K
}.

End ipvs.

(** The two address functions the file imports, [net.ParseIP] and
    [ipvs.NewIP].  Neither is defined in this repository, so the embedding
    takes them as an interface: everything proved below holds whatever
    they compute. *)
Class Addressing : Type := {
  ParseIP : string -> net.IP;
  NewIP : net.IP -> ipvs.IP
}.

(** ** The load balancer *)

Definition ROUNDROBIN : string := "rr".

(** [IPVSLoadBalancer].  The [client] field is the connection whose state
    is threaded through the calls below, so the record keeps the other
    two fields. *)
Record IPVSLoadBalancer : Type := {
  loadBalancerService : ipvs.Service.t;
  Port : Z
}.

Section LoadBalancer.

Context {addressing : Addressing}.
Context {K : Type} {client : ipvs.Client K}.

(** The service descriptor of lines 49-55. *)
Definition service_descriptor (address : string) (port : Z) : ipvs.Service.t :=
  {| ipvs.Service.Family := ipvs.INET;
     ipvs.Service.Protocol := ipvs.TCP;
     ipvs.Service.Port := uint16 port;
     ipvs.Service.Address := NewIP (ParseIP address);
     ipvs.Service.Scheduler := ROUNDROBIN |}.

Definition NewIPVSLB (address : string) (port : Z) (k : K)
  : (option IPVSLoadBalancer * error) * K :=
  let '(err, k) := ipvs.New k in
  match err with
  | Some e => ((None, fmt.Errorf "error creating IPVS client: " e), k)
  | None =>
    let svc := service_descriptor address port in
    let lb := {| Port := port; loadBalancerService := svc |} in
    let '(err, k) := ipvs.CreateService svc k in
    match err with
    | Some e =>
      if strings.Contains e "file exists" then
        let '(err, k) := ipvs.RemoveService svc k in
        match err with
        | Some e => ((None, fmt.Errorf "error re-creating IPVS service: " e), k)
        | None =>
          let '(err, k) := ipvs.CreateService svc k in
          match err with
          | Some e => ((None, fmt.Errorf "error re-creating IPVS service: " e), k)
          | None => ((Some lb, None), k)
          end
        end
      else ((None, fmt.Errorf "error creating IPVS service: " e), k)
    | None => ((Some lb, None), k)
    end
  end.

Definition RemoveIPVSLB (lb : IPVSLoadBalancer) (k : K) : error * K :=
  let '(err, k) := ipvs.RemoveService (loadBalancerService lb) k in
  match err with
  | Some e => (fmt.Errorf "error removing existing IPVS service: " e, k)
  | None => (None, k)
  end.

(** The destination descriptor of lines 91-97. *)
Definition add_descriptor (address : string) (port : Z) : ipvs.Destination.t :=
  {| ipvs.Destination.Address := NewIP (ParseIP address);
     ipvs.Destination.Port := uint16 port;
     ipvs.Destination.Family := ipvs.INET;
     ipvs.Destination.Weight := 1;
     ipvs.Destination.FwdMethod := ipvs.Local |}.

Definition AddBackend (lb : IPVSLoadBalancer) (address : string) (port : Z)
  (k : K) : error * K :=
  let dst := add_descriptor address port in
  let '(err, k) := ipvs.CreateDestination (loadBalancerService lb) dst k in
  match err with
  | Some e =>
    if negb (strings.Contains e "file exists")
    then (fmt.Errorf "error creating backend: " e, k)
    else (None, k)
  | None => (None, k)
  end.

(** The destination descriptor of lines 109-114: [FwdMethod] is not set
    and keeps the zero value of its type. *)
Definition remove_descriptor (address : string) (port : Z) : ipvs.Destination.t :=
  {| ipvs.Destination.Address := NewIP (ParseIP address);
     ipvs.Destination.Port := uint16 port;
     ipvs.Destination.Family := ipvs.INET;
     ipvs.Destination.Weight := 1;
     ipvs.Destination.FwdMethod := 0 |}.

Definition RemoveBackend (lb : IPVSLoadBalancer) (address : string) (port : Z)
  (k : K) : error * K :=
  let dst := remove_descriptor address port in
  let '(err, k) := ipvs.RemoveDestination (loadBalancerService lb) dst k in
  match err with
  | Some e => (fmt.Errorf "error removing backend: " e, k)
  | None => (None, k)
  end.

End LoadBalancer.

(** ** Clients *)

(** *** A recording client

    Wraps any client and writes down, in order, the calls that reach it
    and what each was answered.  Used to count how often the code calls
    [CreateService] and the like. *)

Module traced.

Inductive Call : Type :=
| New
| CreateService (svc : ipvs.Service.t)
| RemoveService (svc : ipvs.Service.t)
| CreateDestination (svc : ipvs.Service.t) (dst : ipvs.Destination.t)
| RemoveDestination (svc : ipvs.Service.t) (dst : ipvs.Destination.t).

Definition is_CreateService (c : Call) : bool :=
  match c with CreateService _ => true | _ => false end.

Definition is_RemoveService (c : Call) : bool :=
  match c with RemoveService _ => true | _ => false end.

Definition Log : Type := list (Call * error).

Definition count (p : Call -> bool) (log : Log) : nat :=
  List.length (filter (fun entry => p (fst entry)) log).

(** The calls of a log, without their answers. *)
Definition calls (log : Log) : list Call := map fst log.


Definition record {K : Type} (c : Call) (call : K -> error * K)
  (s : K * Log) : error * (K * Log) :=
  let '(err, k) := call (fst s) in (err, (k, (snd s ++ [(c, err)])%list)).

#[global] Instance client {K : Type} {inner : ipvs.Client K}
  : ipvs.Client (K * Log) := {|
  ipvs.New := record New ipvs.New;
  ipvs.CreateService svc := record (CreateService svc) (ipvs.CreateService svc);
  ipvs.RemoveService svc := record (RemoveService svc) (ipvs.RemoveService svc);
  ipvs.CreateDestination svc dst :=
    record (CreateDestination svc dst) (ipvs.CreateDestination svc dst);
  ipvs.RemoveDestination svc dst :=
    record (RemoveDestination svc dst) (ipvs.RemoveDestination svc dst)
|}.

End traced.

(** *** A scripted client

    Answers each call with the next entry of a list of canned errors
    ([nil] once the list is used up), whatever the call is.  It stands for
    a kernel that fails for reasons of its own: permissions, a netlink
    socket that went away, another process changing the table between two
    calls. *)

Module scripted.

Definition answer (script : list error) : error * list error :=
  match script with
  | [] => (None, [])
  | e :: rest => (e, rest)
  end.

#[global] Instance client : ipvs.Client (list error) := {|
  ipvs.New := answer;
  ipvs.CreateService _ := answer;
  ipvs.RemoveService _ := answer;
  ipvs.CreateDestination _ _ := answer;
  ipvs.RemoveDestination _ _ := answer
|}.

End scripted.

(** *** The forwarding table *)

Module kernel.

Fixpoint IP_eqb (a b : ipvs.IP) : bool :=
  match a, b with
  | [], [] => true
  | x :: a', y :: b' => Z.eqb x y && IP_eqb a' b'
  | _, _ => false
  end.

(** Modelled from the spec: the forwarding table behind the ipvs client
    (the kernel's IPVS tables, in no file of src).  A service is identified
    by its (family, protocol, address, port) tuple. *)
Definition same_service (a b : ipvs.Service.t) : bool :=
  Z.eqb (ipvs.Service.Family a) (ipvs.Service.Family b)
  && Z.eqb (ipvs.Service.Protocol a) (ipvs.Service.Protocol b)
  && IP_eqb (ipvs.Service.Address a) (ipvs.Service.Address b)
  && Z.eqb (ipvs.Service.Port a) (ipvs.Service.Port b).

(** Modelled from the spec: the forwarding table's notion of a backend
    (not in src): within one service a backend is identified by its
    (address, port) pair. *)
Definition same_destination (a b : ipvs.Destination.t) : bool :=
  IP_eqb (ipvs.Destination.Address a) (ipvs.Destination.Address b)
  && Z.eqb (ipvs.Destination.Port a) (ipvs.Destination.Port b).

(** Modelled from the spec: the forwarding table itself (not in src): the
    registered services in order of registration, each with the backends
    attached to it. *)
Definition Table : Type := list (ipvs.Service.t * list ipvs.Destination.t).

Fixpoint lookup (svc : ipvs.Service.t) (t : Table)
  : option (list ipvs.Destination.t) :=
  match t with
  | [] => None
  | (s, ds) :: t' => if same_service svc s then Some ds else lookup svc t'
  end.

(** Drops the first entry registered under [svc]'s tuple, and its backends
    with it. *)
Fixpoint unlink (svc : ipvs.Service.t) (t : Table) : Table :=
  match t with
  | [] => []
  | (s, ds) :: t' =>
    if same_service svc s then t' else (s, ds) :: unlink svc t'
  end.

(** Gives the first entry registered under [svc]'s tuple the backends
    [ds']. *)
Fixpoint attach (svc : ipvs.Service.t) (ds' : list ipvs.Destination.t)
  (t : Table) : Table :=
  match t with
  | [] => []
  | (s, ds) :: t' =>
    if same_service svc s then (s, ds') :: t' else (s, ds) :: attach svc ds' t'
  end.

Definition has_destination (dst : ipvs.Destination.t)
  (ds : list ipvs.Destination.t) : bool :=
  existsb (same_destination dst) ds.

Fixpoint unlink_destination (dst : ipvs.Destination.t)
  (ds : list ipvs.Destination.t) : list ipvs.Destination.t :=
  match ds with
  | [] => []
  | d :: ds' =>
    if same_destination dst d then ds' else d :: unlink_destination dst ds'
  end.

(** The texts of the errors the table answers with. *)
Definition EEXIST : string := "file exists".
Definition ENOENT : string := "no such file or directory".
Definition ESRCH : string := "no such process".

(** Modelled from the spec: the four operations of the
    ForwardingTableClient (the ipvs client over the kernel's table, not in
    src).  Creating what is already registered fails with the "already
    exists" error and removing what is not registered with a "not found"
    error; a failed call leaves the table as it was. *)
Definition CreateService (svc : ipvs.Service.t) (t : Table) : error * Table :=
  match lookup svc t with
  | Some _ => (Some EEXIST, t)
  | None => (None, (t ++ [(svc, [])])%list)
  end.

Definition RemoveService (svc : ipvs.Service.t) (t : Table) : error * Table :=
  match lookup svc t with
  | Some _ => (None, unlink svc t)
  | None => (Some ESRCH, t)
  end.

Definition CreateDestination (svc : ipvs.Service.t) (dst : ipvs.Destination.t)
  (t : Table) : error * Table :=
  match lookup svc t with
  | None => (Some ESRCH, t)
  | Some ds =>
    if has_destination dst ds then (Some EEXIST, t)
    else (None, attach svc (ds ++ [dst])%list t)
  end.

Definition RemoveDestination (svc : ipvs.Service.t) (dst : ipvs.Destination.t)
  (t : Table) : error * Table :=
  match lookup svc t with
  | None => (Some ESRCH, t)
  | Some ds =>
    if has_destination dst ds
    then (None, attach svc (unlink_destination dst ds) t)
    else (Some ENOENT, t)
  end.

#[global] Instance client : ipvs.Client Table := {|
  ipvs.New t := (None, t);
  ipvs.CreateService := CreateService;
  ipvs.RemoveService := RemoveService;
  ipvs.CreateDestination := CreateDestination;
  ipvs.RemoveDestination := RemoveDestination
|}.

(** What an observer reads off the table. *)

(** How many service descriptors are registered under [svc]'s tuple. *)
Definition count_services (svc : ipvs.Service.t) (t : Table) : nat :=
  List.length (filter (fun e => same_service svc (fst e)) t).

(** The backend set of the service registered under [svc]'s tuple. *)
Definition backends (svc : ipvs.Service.t) (t : Table)
  : list ipvs.Destination.t :=
  match lookup svc t with
  | Some ds => ds
  | None => []
  end.

(** How many entries of a backend set stand for [dst]'s (address, port). *)
Definition count_backends (dst : ipvs.Destination.t)
  (ds : list ipvs.Destination.t) : nat :=
  List.length (filter (same_destination dst) ds).

(** The data model's two invariants: no tuple is registered twice, and no
    backend set holds a pair twice. *)
Fixpoint distinct {A : Type} (same : A -> A -> bool) (l : list A) : bool :=
  match l with
  | [] => true
  | x :: l' => negb (existsb (same x) l') && distinct same l'
  end.

Definition wf (t : Table) : bool :=
  distinct same_service (map fst t)
  && forallb (fun e => distinct same_destination (snd e)) t.

End kernel.

(** *** Textual addresses *)

Module textual.

Definition code (c : ascii) : Z := Z.of_N (N_of_ascii c).

Definition digit (c : ascii) : option Z :=
  let n := code c in
  if (48 <=? n) && (n <=? 57) then Some (n - 48) else None.

Definition xdigit (c : ascii) : option Z :=
  let n := code c in
  if (48 <=? n) && (n <=? 57) then Some (n - 48)
  else if (97 <=? n) && (n <=? 102) then Some (n - 87)
  else if (65 <=? n) && (n <=? 70) then Some (n - 55)
  else None.

(** The value of a string of digits, read most significant digit first. *)
Fixpoint number (base : Z) (dig : ascii -> option Z) (acc : Z) (s : string)
  : option Z :=
  match s with
  | EmptyString => Some acc
  | String c s' =>
    match dig c with
    | Some d => number base dig (acc * base + d) s'
    | None => None
    end
  end.

(** The fields of [s] between occurrences of [sep]. *)
Fixpoint split (sep : ascii) (s : string) : list string :=
  match s with
  | EmptyString => [EmptyString]
  | String c s' =>
    if Ascii.eqb c sep then EmptyString :: split sep s'
    else match split sep s' with
         | f :: fs => String c f :: fs
         | [] => [String c EmptyString]
         end
  end.

Definition fields (s : string) : list string :=
  match s with
  | EmptyString => []
  | _ => split ":" s
  end.

(** A decimal field of a dotted quad: one to three digits, no leading
    zero, at most 255. *)
Definition octet (s : string) : option Z :=
  match s with
  | EmptyString => None
  | String c rest =>
    if Ascii.eqb c "0" && negb (String.eqb rest EmptyString) then None
    else match number 10 digit 0 s with
         | Some n => if n <=? 255 then Some n else None
         | None => None
         end
  end.

(** A hexadecimal group: one to four digits, as two bytes. *)
Definition hextet (s : string) : option (list Z) :=
  if (Nat.leb 1 (String.length s)) && (Nat.leb (String.length s) 4) then
    match number 16 xdigit 0 s with
    | Some n => Some [n / 256; n mod 256]
    | None => None
    end
  else None.

Definition quad (s : string) : option (list Z) :=
  match split "." s with
  | [a; b; c; d] =>
    match octet a, octet b, octet c, octet d with
    | Some a, Some b, Some c, Some d => Some [a; b; c; d]
    | _, _, _, _ => None
    end
  | _ => None
  end.

Definition v4InV6Prefix : list Z := [0; 0; 0; 0; 0; 0; 0; 0; 0; 0; 255; 255].

Definition parseIPv4 (s : string) : net.IP :=
  match quad s with
  | Some p => (v4InV6Prefix ++ p)%list
  | None => []
  end.

Definition dotted (s : string) : bool := strings.Contains s ".".

(** The bytes of a run of groups; the last one may be a dotted quad when
    [tail] allows it. *)
Fixpoint groups (tail : bool) (fs : list string) : option (list Z) :=
  match fs with
  | [] => Some []
  | f :: fs' =>
    match fs' with
    | [] => if tail && dotted f then quad f else hextet f
    | _ :: _ =>
      match hextet f, groups tail fs' with
      | Some h, Some r => Some (h ++ r)%list
      | _, _ => None
      end
    end
  end.

(** Cuts [s] at its first "::". *)
Fixpoint cut (s : string) : option (string * string) :=
  match s with
  | EmptyString => None
  | String c s' =>
    if Ascii.eqb c ":" && String.prefix ":" s'
    then Some (EmptyString, String.substring 1 (String.length s' - 1) s')
    else match cut s' with
         | Some (l, r) => Some (String c l, r)
         | None => None
         end
  end.

Definition parseIPv6 (s : string) : net.IP :=
  match cut s with
  | None =>
    match groups true (fields s) with
    | Some bs => if Nat.eqb (List.length bs) 16 then bs else []
    | None => []
    end
  | Some (l, r) =>
    match groups false (fields l), groups true (fields r) with
    | Some a, Some b =>
      if Nat.leb (List.length a + List.length b) 14
      then (a ++ repeat 0 (16 - (List.length a + List.length b)) ++ b)%list
      else []
    | _, _ => []
    end
  end.

Fixpoint dispatch (whole rest : string) : net.IP :=
  match rest with
  | EmptyString => []
  | String c rest' =>
    if Ascii.eqb c "." then parseIPv4 whole
    else if Ascii.eqb c ":" then parseIPv6 whole
    else dispatch whole rest'
  end.

(** Modelled from the spec: [net.ParseIP] (Go's standard library, not in
    src), for the "parseable IPv4/IPv6 address" inputs: a dotted quad gives
    the sixteen-byte IPv4-mapped form, colon-separated hexadecimal groups
    with at most one "::" give the sixteen bytes of an IPv6 address, and
    any other text gives [nil]. *)
Definition ParseIP (s : string) : net.IP := dispatch s s.

(** Modelled from the spec: [ipvs.NewIP] (the ipvs package, not in src):
    the sixteen-byte array holding the four bytes of an IPv4 address or the
    sixteen of an IPv6 one, padded with zeros; [nil] gives all zeros. *)
Definition NewIP (ip : net.IP) : ipvs.IP :=
  let bytes := match net.To4 ip with [] => ip | _ :: _ => net.To4 ip end in
  firstn 16 (bytes ++ repeat 0 16)%list.

#[global] Instance addressing : Addressing := Build_Addressing ParseIP NewIP.

End textual.

(** The family of a parsed address: IPv4 when [To4] gives its four bytes,
    IPv6 for any other sixteen bytes, none for [nil]. *)
Definition family_of (ip : net.IP) : option ipvs.AddressFamily :=
  match net.To4 ip with
  | _ :: _ => Some ipvs.INET
  | [] => if Nat.eqb (List.length ip) net.IPv6len then Some ipvs.INET6 else None
  end.

(** ** Two readings of the specification, as predicates on a call *)

(** "On an already-exists failure the stale descriptor is removed and
    creation is retried exactly once": the recorded calls of
    [NewIPVSLB address port] hold one [RemoveService] and two
    [CreateService], the first attempt and its one retry. *)
Definition retries_once_on_conflict {A : Addressing} {K : Type}
  {C : ipvs.Client K} (address : string) (port : Z) (k : K) : Prop :=
  forall k1 e k2,
    ipvs.New k = (None, k1) ->
    ipvs.CreateService (service_descriptor address port) k1 = (Some e, k2) ->
    strings.Contains e "file exists" = true ->
    let log := snd (snd (NewIPVSLB address port (k, []))) in
    traced.count traced.is_RemoveService log = 1%nat
    /\ traced.count traced.is_CreateService log = 2%nat.

(** "The descriptors carry the address family of the input address": for
    an address that parses, the family written into the service descriptor
    and into both backend descriptors is the family of the parsed
    address. *)
Definition family_follows_address {A : Addressing}
  (address : string) (port : Z) : Prop :=
  forall fam,
    family_of (ParseIP address) = Some fam ->
    ipvs.Service.Family (service_descriptor address port) = fam
    /\ ipvs.Destination.Family (add_descriptor address port) = fam
    /\ ipvs.Destination.Family (remove_descriptor address port) = fam.

(** Does the family written into the service descriptor equal the family
    of the parsed address? *)
Definition family_matches {A : Addressing} (address : string) (port : Z)
  : bool :=
  match family_of (ParseIP address) with
  | Some fam => Z.eqb (ipvs.Service.Family (service_descriptor address port)) fam
  | None => false
  end.

Definition is_IPv4 (ip : net.IP) : bool :=
  match net.To4 ip with
  | [] => false
  | _ :: _ => true
  end.




(** Does the text of an error hold "file exists"?  [nil] holds nothing. *)
Definition has_marker (err : error) : bool :=
  match err with
  | Some e => strings.Contains e "file exists"
  | None => false
  end.

(** Is a recorded call one on a backend? *)
Definition is_destination_call (c : traced.Call) : bool :=
  match c with
  | traced.CreateDestination _ _ | traced.RemoveDestination _ _ => true
  | _ => false
  end.

(** * Properties *)

Local Open Scope list_scope.

(** ** The forwarding table's keys *)

Lemma IP_eqb_refl (a : ipvs.IP) : kernel.IP_eqb a a = true.
Proof.
  induction a as [|x a IH]; simpl; [reflexivity|].
  now rewrite Z.eqb_refl, IH.
Qed.

Lemma IP_eqb_eq (a b : ipvs.IP) : kernel.IP_eqb a b = true <-> a = b.
Proof.
  split.
  - revert b; induction a as [|x a IH]; intros [|y b]; simpl;
      try discriminate; try reflexivity.
    intros H. apply andb_true_iff in H as [Hx Hab].
    apply Z.eqb_eq in Hx. apply IH in Hab. now subst.
  - intros ->. apply IP_eqb_refl.
Qed.

Lemma same_service_spec (a b : ipvs.Service.t) :
  kernel.same_service a b = true <->
  ipvs.Service.Family a = ipvs.Service.Family b
  /\ ipvs.Service.Protocol a = ipvs.Service.Protocol b
  /\ ipvs.Service.Address a = ipvs.Service.Address b
  /\ ipvs.Service.Port a = ipvs.Service.Port b.
Proof.
  unfold kernel.same_service.
  rewrite !andb_true_iff, !Z.eqb_eq, IP_eqb_eq. tauto.
Qed.

Lemma same_service_refl (a : ipvs.Service.t) : kernel.same_service a a = true.
Proof. apply same_service_spec. tauto. Qed.

Lemma same_service_congr (a b c : ipvs.Service.t) :
  kernel.same_service a b = true ->
  kernel.same_service a c = kernel.same_service b c.
Proof.
  intros Hab. apply same_service_spec in Hab as (Hf & Hp & Ha & Hq).
  unfold kernel.same_service. now rewrite Hf, Hp, Ha, Hq.
Qed.

Lemma same_destination_spec (a b : ipvs.Destination.t) :
  kernel.same_destination a b = true <->
  ipvs.Destination.Address a = ipvs.Destination.Address b
  /\ ipvs.Destination.Port a = ipvs.Destination.Port b.
Proof.
  unfold kernel.same_destination.
  rewrite andb_true_iff, Z.eqb_eq, IP_eqb_eq. tauto.
Qed.

Lemma same_destination_refl (a : ipvs.Destination.t) :
  kernel.same_destination a a = true.
Proof. apply same_destination_spec. tauto. Qed.

Lemma same_destination_congr (a b c : ipvs.Destination.t) :
  kernel.same_destination a b = true ->
  kernel.same_destination a c = kernel.same_destination b c.
Proof.
  intros Hab. apply same_destination_spec in Hab as (Ha & Hp).
  unfold kernel.same_destination. now rewrite Ha, Hp.
Qed.

Lemma same_destination_sym (a b : ipvs.Destination.t) :
  kernel.same_destination a b = kernel.same_destination b a.
Proof.
  destruct (kernel.same_destination a b) eqn:Hab;
    destruct (kernel.same_destination b a) eqn:Hba; try reflexivity.
  - apply same_destination_spec in Hab as (Ha & Hp).
    assert (kernel.same_destination b a = true) as H
      by (apply same_destination_spec; split; congruence).
    congruence.
  - apply same_destination_spec in Hba as (Ha & Hp).
    assert (kernel.same_destination a b = true) as H
      by (apply same_destination_spec; split; congruence).
    congruence.
Qed.

(** ** Lookups in the table *)

Lemma count_services_cons (svc s : ipvs.Service.t)
  (ds : list ipvs.Destination.t) (t : kernel.Table) :
  kernel.count_services svc ((s, ds) :: t) =
  ((if kernel.same_service svc s then 1 else 0)
   + kernel.count_services svc t)%nat.
Proof.
  unfold kernel.count_services. simpl.
  destruct (kernel.same_service svc s); reflexivity.
Qed.

Lemma lookup_None_count (svc : ipvs.Service.t) (t : kernel.Table) :
  kernel.lookup svc t = None <-> kernel.count_services svc t = 0%nat.
Proof.
  induction t as [|[s ds] t IH]; simpl.
  - split; reflexivity.
  - rewrite count_services_cons.
    destruct (kernel.same_service svc s); simpl.
    + split; discriminate.
    + exact IH.
Qed.

Lemma count_services_register (svc : ipvs.Service.t) (t : kernel.Table) :
  kernel.count_services svc (t ++ [(svc, [])]) =
  S (kernel.count_services svc t).
Proof.
  induction t as [|[s ds] t IH].
  - simpl. rewrite count_services_cons, same_service_refl. reflexivity.
  - simpl. rewrite !count_services_cons, IH. lia.
Qed.

Lemma lookup_register (svc : ipvs.Service.t) (t : kernel.Table) :
  kernel.lookup svc t = None ->
  kernel.lookup svc (t ++ [(svc, [])]) = Some [].
Proof.
  induction t as [|[s ds] t IH]; simpl.
  - now rewrite same_service_refl.
  - destruct (kernel.same_service svc s); [discriminate | exact IH].
Qed.

Lemma lookup_attach (svc : ipvs.Service.t) (ds ds' : list ipvs.Destination.t)
  (t : kernel.Table) :
  kernel.lookup svc t = Some ds ->
  kernel.lookup svc (kernel.attach svc ds' t) = Some ds'.
Proof.
  induction t as [|[s d] t IH]; simpl; [discriminate|].
  destruct (kernel.same_service svc s) eqn:E; simpl; rewrite E; auto.
Qed.

Lemma has_destination_count (dst : ipvs.Destination.t)
  (ds : list ipvs.Destination.t) :
  kernel.has_destination dst ds = false <->
  kernel.count_backends dst ds = 0%nat.
Proof.
  unfold kernel.has_destination, kernel.count_backends.
  induction ds as [|d ds IH]; simpl.
  - split; reflexivity.
  - destruct (kernel.same_destination dst d); simpl.
    + split; discriminate.
    + exact IH.
Qed.

Lemma has_destination_congr (a b : ipvs.Destination.t)
  (ds : list ipvs.Destination.t) :
  kernel.same_destination a b = true ->
  kernel.has_destination a ds = existsb (kernel.same_destination b) ds.
Proof.
  intros Hab. unfold kernel.has_destination.
  induction ds as [|d ds IH]; simpl; [reflexivity|].
  now rewrite IH, (same_destination_congr a b d Hab).
Qed.

Lemma count_backends_app (dst : ipvs.Destination.t)
  (l1 l2 : list ipvs.Destination.t) :
  kernel.count_backends dst (l1 ++ l2) =
  (kernel.count_backends dst l1 + kernel.count_backends dst l2)%nat.
Proof.
  unfold kernel.count_backends. now rewrite filter_app, length_app.
Qed.

Lemma count_backends_unlink (dst : ipvs.Destination.t)
  (ds : list ipvs.Destination.t) :
  kernel.has_destination dst ds = true ->
  S (kernel.count_backends dst (kernel.unlink_destination dst ds)) =
  kernel.count_backends dst ds.
Proof.
  unfold kernel.has_destination, kernel.count_backends.
  induction ds as [|d ds IH]; simpl; [discriminate|].
  destruct (kernel.same_destination dst d) eqn:E; simpl.
  - reflexivity.
  - rewrite E. exact IH.
Qed.

Lemma distinct_count (dst : ipvs.Destination.t)
  (ds : list ipvs.Destination.t) :
  kernel.distinct kernel.same_destination ds = true ->
  (kernel.count_backends dst ds <= 1)%nat.
Proof.
  unfold kernel.count_backends.
  induction ds as [|d ds IH]; simpl; [lia|].
  intros H. apply andb_true_iff in H as [Hd Hds].
  specialize (IH Hds).
  destruct (kernel.same_destination dst d) eqn:E; simpl; [|exact IH].
  apply negb_true_iff in Hd.
  assert (kernel.has_destination dst ds = false) as Hn.
  { rewrite <- Hd. now apply has_destination_congr. }
  apply has_destination_count in Hn.
  unfold kernel.count_backends in Hn. lia.
Qed.

Lemma wf_lookup (svc : ipvs.Service.t) (ds : list ipvs.Destination.t)
  (t : kernel.Table) :
  kernel.wf t = true -> kernel.lookup svc t = Some ds ->
  kernel.distinct kernel.same_destination ds = true.
Proof.
  unfold kernel.wf. intros H. apply andb_true_iff in H as [_ H].
  induction t as [|[s d] t IH]; simpl in *; [discriminate|].
  apply andb_true_iff in H as [Hd Ht].
  destruct (kernel.same_service svc s); [congruence | auto].
Qed.

(** ** Construction: the conflict policy of [NewIPVSLB] *)

Section Construction.

Context {A : Addressing} {K : Type} {C : ipvs.Client K}.

(** Whatever the client answers, [NewIPVSLB] makes one of four runs of
    calls, all on the same descriptor. *)
Lemma NewIPVSLB_calls (address : string) (port : Z) (k : K) :
  let svc := service_descriptor address port in
  let log := traced.calls (snd (snd (NewIPVSLB address port (k, [])))) in
  log = [traced.New]
  \/ log = [traced.New; traced.CreateService svc]
  \/ log = [traced.New; traced.CreateService svc; traced.RemoveService svc]
  \/ log = [traced.New; traced.CreateService svc; traced.RemoveService svc;
            traced.CreateService svc].
Proof.
  cbv zeta. unfold NewIPVSLB. simpl. unfold traced.record. simpl.
  destruct (ipvs.New k) as [[e|] k1]; simpl; [now left|].
  destruct (ipvs.CreateService (service_descriptor address port) k1)
    as [[e|] k2]; simpl; [|now right; left].
  destruct (strings.Contains e "file exists"); simpl; [|now right; left].
  destruct (ipvs.RemoveService (service_descriptor address port) k2)
    as [[e3|] k3]; simpl; [now right; right; left|].
  destruct (ipvs.CreateService (service_descriptor address port) k3)
    as [[e4|] k4]; simpl; now right; right; right.
Qed.

(** Recording the calls changes neither the result nor the client's
    state. *)
Lemma NewIPVSLB_recorded (address : string) (port : Z) (k : K)
  (log : traced.Log) :
  fst (NewIPVSLB address port (k, log)) = fst (NewIPVSLB address port k)
  /\ fst (snd (NewIPVSLB address port (k, log))) =
     snd (NewIPVSLB address port k).
Proof.
  unfold NewIPVSLB. simpl. unfold traced.record. simpl.
  destruct (ipvs.New k) as [[e|] k1]; simpl; [now split|].
  destruct (ipvs.CreateService (service_descriptor address port) k1)
    as [[e|] k2]; simpl; [|now split].
  destruct (strings.Contains e "file exists"); simpl; [|now split].
  destruct (ipvs.RemoveService (service_descriptor address port) k2)
    as [[e3|] k3]; simpl; [now split|].
  destruct (ipvs.CreateService (service_descriptor address port) k3)
    as [[e4|] k4]; simpl; now split.
Qed.

(** C1 (amended).  When the first [CreateService] fails with a text other
    than "file exists", [NewIPVSLB] returns the creation error at once,
    having called nothing else.  When it fails with "file exists",
    [NewIPVSLB] calls [RemoveService] on the same descriptor; if that call
    fails it returns an error without retrying; if it succeeds,
    [CreateService] is called exactly once more, and the handle is returned
    if and only if that retry succeeds. *)
Theorem NewIPVSLB_conflict_policy (address : string) (port : Z)
  (k0 k1 k2 : K) (e : string) :
  let svc := service_descriptor address port in
  let lb := {| loadBalancerService := svc; Port := port |} in
  ipvs.New k0 = (None, k1) ->
  ipvs.CreateService svc k1 = (Some e, k2) ->
  (strings.Contains e "file exists" = false ->
   NewIPVSLB address port (k0, []) =
   ((None, Some ("error creating IPVS service: " ++ e)%string),
    (k2, [(traced.New, None); (traced.CreateService svc, Some e)])))
  /\
  (strings.Contains e "file exists" = true ->
   forall r3 k3,
     ipvs.RemoveService svc k2 = (r3, k3) ->
     match r3 with
     | Some e3 =>
       NewIPVSLB address port (k0, []) =
       ((None, Some ("error re-creating IPVS service: " ++ e3)%string),
        (k3, [(traced.New, None); (traced.CreateService svc, Some e);
              (traced.RemoveService svc, Some e3)]))
     | None =>
       forall r4 k4,
         ipvs.CreateService svc k3 = (r4, k4) ->
         NewIPVSLB address port (k0, []) =
         (match r4 with
          | None => (Some lb, None)
          | Some e4 =>
            (None, Some ("error re-creating IPVS service: " ++ e4)%string)
          end,
          (k4, [(traced.New, None); (traced.CreateService svc, Some e);
                (traced.RemoveService svc, None);
                (traced.CreateService svc, r4)]))
     end).
Proof.
  cbv zeta. intros HNew HCreate.
  unfold NewIPVSLB. simpl. unfold traced.record. simpl.
  rewrite HNew. simpl. rewrite HCreate. simpl.
  split; intros HContains; rewrite HContains.
  - reflexivity.
  - intros r3 k3 HRemove. rewrite HRemove. simpl.
    destruct r3 as [e3|]; [reflexivity|].
    intros r4 k4 HRetry. rewrite HRetry. simpl.
    destruct r4 as [e4|]; reflexivity.
Qed.

End Construction.

(** A table left behind by an earlier run: the service of 10.0.0.1:6443
    with one backend still attached. *)
Lemma NewIPVSLB_conflict_policy_witness :
  let svc := service_descriptor "10.0.0.1" 6443 in
  let stale : kernel.Table := [(svc, [add_descriptor "10.0.0.10" 6443])] in
  ipvs.New stale = (None, stale)
  /\ ipvs.CreateService svc stale = (Some "file exists"%string, stale)
  /\ NewIPVSLB "10.0.0.1" 6443 (stale, []) =
     ((Some {| loadBalancerService := svc; Port := 6443 |}, None),
      ([(svc, [])],
       [(traced.New, None);
        (traced.CreateService svc, Some "file exists"%string);
        (traced.RemoveService svc, None);
        (traced.CreateService svc, None)])).
Proof.
  cbv zeta.
  pose (svc := service_descriptor "10.0.0.1" 6443).
  pose (stale := [(svc, [add_descriptor "10.0.0.10" 6443])] : kernel.Table).
  assert (HNew : ipvs.New stale = (None, stale)) by reflexivity.
  assert (HCreate : ipvs.CreateService svc stale
                    = (Some "file exists"%string, stale)) by reflexivity.
  assert (HRemove : ipvs.RemoveService svc stale = (None, []))
    by reflexivity.
  assert (HRetry : ipvs.CreateService svc ([] : kernel.Table)
                   = (None, [(svc, [])])) by reflexivity.
  split; [exact HNew|]. split; [exact HCreate|].
  destruct (NewIPVSLB_conflict_policy "10.0.0.1" 6443 stale stale stale
              "file exists"%string HNew HCreate) as [_ H].
  exact (H eq_refl None [] HRemove None [(svc, [])] HRetry).
Defined.

(** C1 as the specification words it fails: a client whose [CreateService]
    answers "file exists" and whose [RemoveService] then answers
    "operation not permitted" sees one [CreateService] call, not two. *)
Lemma retries_once_on_conflict_fails :
  ~ retries_once_on_conflict (C := scripted.client) "10.0.0.1" 6443
      [None; Some "file exists"%string;
       Some "operation not permitted"%string].
Proof.
  intros H.
  specialize (H _ _ _ eq_refl eq_refl eq_refl).
  destruct H as [_ H]. vm_compute in H. discriminate H.
Qed.

(** ** Construction on the forwarding table *)

Lemma lookup_existsb (svc : ipvs.Service.t) (t : kernel.Table) :
  kernel.lookup svc t = None <->
  existsb (kernel.same_service svc) (map fst t) = false.
Proof.
  induction t as [|[s ds] t IH]; simpl.
  - split; reflexivity.
  - destruct (kernel.same_service svc s); simpl.
    + split; discriminate.
    + exact IH.
Qed.

Lemma existsb_same_service (a b : ipvs.Service.t) (l : list ipvs.Service.t) :
  kernel.same_service a b = true ->
  existsb (kernel.same_service a) l = existsb (kernel.same_service b) l.
Proof.
  intros Hab. induction l as [|x l IH]; simpl; [reflexivity|].
  now rewrite IH, (same_service_congr a b x Hab).
Qed.

(** In a well-formed table a tuple is registered once, so unlinking it
    leaves none behind. *)
Lemma lookup_unlink (svc : ipvs.Service.t) (t : kernel.Table) :
  kernel.distinct kernel.same_service (map fst t) = true ->
  kernel.lookup svc (kernel.unlink svc t) = None.
Proof.
  induction t as [|[s ds] t IH]; simpl; [reflexivity|].
  intros H. apply andb_true_iff in H as [Hs Ht].
  destruct (kernel.same_service svc s) eqn:E; simpl.
  - apply lookup_existsb.
    rewrite (existsb_same_service svc s _ E).
    now apply negb_true_iff.
  - rewrite E. auto.
Qed.

(** C2.  When [NewIPVSLB address port] succeeds on a forwarding table, be
    it at the first attempt or after the stale descriptor of an earlier run
    was removed, the table holds exactly one service descriptor for the
    (family, protocol, address, port) tuple, that service has no backends,
    and the handle carries the descriptor. *)
Theorem NewIPVSLB_registers_one_service {A : Addressing}
  (address : string) (port : Z) (t t' : kernel.Table)
  (lb : IPVSLoadBalancer) (err : error) :
  NewIPVSLB address port t = ((Some lb, err), t') ->
  err = None
  /\ loadBalancerService lb = service_descriptor address port
  /\ kernel.count_services (service_descriptor address port) t' = 1%nat
  /\ kernel.lookup (service_descriptor address port) t' = Some []
  /\ kernel.backends (service_descriptor address port) t' = [].
Proof.
  set (svc := service_descriptor address port).
  assert (Hfresh : forall u : kernel.Table,
             kernel.lookup svc u = None ->
             kernel.count_services svc (u ++ [(svc, [])]) = 1%nat
             /\ kernel.lookup svc (u ++ [(svc, [])]) = Some []
             /\ kernel.backends svc (u ++ [(svc, [])]) = []).
  { intros u Hu. unfold kernel.backends.
    rewrite (lookup_register svc u Hu), count_services_register.
    apply lookup_None_count in Hu. rewrite Hu. auto. }
  unfold NewIPVSLB. simpl. fold svc. unfold kernel.CreateService.
  destruct (kernel.lookup svc t) as [ds|] eqn:Hfirst.
  - replace (strings.Contains kernel.EEXIST "file exists") with true
      by reflexivity.
    unfold kernel.RemoveService. rewrite Hfirst.
    destruct (kernel.lookup svc (kernel.unlink svc t)) as [ds'|] eqn:Hretry.
    + discriminate.
    + intros H. injection H as <- <- <-. auto.
  - intros H. injection H as <- <- <-. auto.
Qed.

Lemma NewIPVSLB_registers_one_service_witness :
  let svc := service_descriptor "10.0.0.1" 6443 in
  let stale : kernel.Table :=
    [(svc, [add_descriptor "10.0.0.10" 6443;
            add_descriptor "10.0.0.11" 6443])] in
  NewIPVSLB "10.0.0.1" 6443 stale
  = ((Some {| loadBalancerService := svc; Port := 6443 |}, None),
     [(svc, [])])
  /\ kernel.count_services svc [(svc, [])] = 1%nat
  /\ kernel.backends svc [(svc, [])] = [].
Proof.
  cbv zeta.
  pose (svc := service_descriptor "10.0.0.1" 6443).
  pose (stale := [(svc, [add_descriptor "10.0.0.10" 6443;
                         add_descriptor "10.0.0.11" 6443])] : kernel.Table).
  assert (Hrun : NewIPVSLB "10.0.0.1" 6443 stale
                 = ((Some {| loadBalancerService := svc; Port := 6443 |},
                     None), [(svc, [])])) by reflexivity.
  split; [exact Hrun|].
  destruct (NewIPVSLB_registers_one_service "10.0.0.1" 6443 stale
              [(svc, [])] _ None Hrun) as (_ & _ & Hone & _ & Hnone).
  split; [exact Hone | exact Hnone].
Defined.

(** Recovery does succeed: on a well-formed table that still holds a
    descriptor for the tuple, [NewIPVSLB] returns a handle. *)
Lemma NewIPVSLB_recovers {A : Addressing} (address : string) (port : Z)
  (t : kernel.Table) (ds : list ipvs.Destination.t) :
  kernel.wf t = true ->
  kernel.lookup (service_descriptor address port) t = Some ds ->
  NewIPVSLB address port t =
  ((Some {| loadBalancerService := service_descriptor address port;
            Port := port |}, None),
   kernel.unlink (service_descriptor address port) t
   ++ [(service_descriptor address port, [])]).
Proof.
  intros Hwf Hstale. unfold kernel.wf in Hwf.
  apply andb_true_iff in Hwf as [Hsvc _].
  unfold NewIPVSLB. simpl. unfold kernel.CreateService. rewrite Hstale.
  replace (strings.Contains kernel.EEXIST "file exists") with true
    by reflexivity.
  unfold kernel.RemoveService. rewrite Hstale.
  now rewrite (lookup_unlink _ t Hsvc).
Qed.

(** ** Backends *)

(** [RemoveBackend]'s descriptor names the same (address, port) as
    [AddBackend]'s. *)
Lemma remove_descriptor_key {A : Addressing} (address : string) (port : Z) :
  kernel.same_destination (remove_descriptor address port)
  = kernel.same_destination (add_descriptor address port).
Proof. reflexivity. Qed.

Lemma AddBackend_table {A : Addressing} (lb : IPVSLoadBalancer)
  (address : string) (port : Z) (t : kernel.Table)
  (ds : list ipvs.Destination.t) :
  kernel.lookup (loadBalancerService lb) t = Some ds ->
  AddBackend lb address port t =
  (None,
   if kernel.has_destination (add_descriptor address port) ds then t
   else kernel.attach (loadBalancerService lb)
          (ds ++ [add_descriptor address port]) t).
Proof.
  intros Hsvc. unfold AddBackend. simpl. unfold kernel.CreateDestination.
  rewrite Hsvc.
  destruct (kernel.has_destination (add_descriptor address port) ds);
    reflexivity.
Qed.

Lemma RemoveBackend_table {A : Addressing} (lb : IPVSLoadBalancer)
  (address : string) (port : Z) (t : kernel.Table)
  (ds : list ipvs.Destination.t) :
  kernel.lookup (loadBalancerService lb) t = Some ds ->
  RemoveBackend lb address port t =
  if kernel.has_destination (add_descriptor address port) ds
  then (None,
        kernel.attach (loadBalancerService lb)
          (kernel.unlink_destination (add_descriptor address port) ds) t)
  else (Some "error removing backend: no such file or directory"%string, t).
Proof.
  intros Hsvc. unfold RemoveBackend. simpl. unfold kernel.RemoveDestination.
  rewrite Hsvc. unfold kernel.has_destination.
  rewrite remove_descriptor_key.
  destruct (existsb (kernel.same_destination (add_descriptor address port)) ds)
    eqn:E; [|reflexivity].
  f_equal. f_equal.
  clear. induction ds as [|d ds IH]; simpl; [reflexivity|].
  rewrite remove_descriptor_key. now rewrite IH.
Qed.

(** After an [AddBackend] on a registered service the pair is in the
    backend set; it is there once when the set was well formed. *)
Lemma AddBackend_adds {A : Addressing} (lb : IPVSLoadBalancer)
  (address : string) (port : Z) (t : kernel.Table)
  (ds : list ipvs.Destination.t) :
  kernel.lookup (loadBalancerService lb) t = Some ds ->
  kernel.distinct kernel.same_destination ds = true ->
  exists ds',
    kernel.lookup (loadBalancerService lb)
      (snd (AddBackend lb address port t)) = Some ds'
    /\ kernel.has_destination (add_descriptor address port) ds' = true
    /\ kernel.count_backends (add_descriptor address port) ds' = 1%nat.
Proof.
  intros Hsvc Hds. rewrite (AddBackend_table lb address port t ds Hsvc).
  pose proof (distinct_count (add_descriptor address port) ds Hds) as Hle.
  simpl.
  destruct (kernel.has_destination (add_descriptor address port) ds) eqn:E.
  - exists ds. split; [exact Hsvc|]. split; [exact E|].
    destruct (kernel.count_backends (add_descriptor address port) ds)
      as [|n] eqn:En; [|lia].
    apply has_destination_count in En. congruence.
  - exists (ds ++ [add_descriptor address port]).
    split; [now apply (lookup_attach _ ds)|].
    apply has_destination_count in E. split.
    + unfold kernel.has_destination. rewrite existsb_app. simpl.
      rewrite same_destination_refl. now rewrite orb_true_r.
    + rewrite count_backends_app, E. unfold kernel.count_backends. simpl.
      now rewrite same_destination_refl.
Qed.

(** C3.  [AddBackend] returns [nil] when [CreateDestination] succeeds and
    when it fails with a text holding "file exists", and returns any other
    failure to the caller as an error; on the forwarding table, two
    [AddBackend] calls in a row for one (address, port) both succeed and
    leave exactly one backend entry for the pair. *)
Theorem AddBackend_duplicate_tolerant {A : Addressing} {K : Type}
  {C : ipvs.Client K} (lb : IPVSLoadBalancer) (address : string) (port : Z) :
  (forall k : K,
     AddBackend lb address port k =
     (match fst (ipvs.CreateDestination (loadBalancerService lb)
                   (add_descriptor address port) k) with
      | None => None
      | Some e =>
        if strings.Contains e "file exists" then None
        else Some ("error creating backend: " ++ e)%string
      end,
      snd (ipvs.CreateDestination (loadBalancerService lb)
             (add_descriptor address port) k)))
  /\
  (forall (t : kernel.Table) (ds : list ipvs.Destination.t),
     kernel.wf t = true ->
     kernel.lookup (loadBalancerService lb) t = Some ds ->
     let first := AddBackend lb address port t in
     let second := AddBackend lb address port (snd first) in
     fst first = None
     /\ fst second = None
     /\ kernel.count_backends (add_descriptor address port)
          (kernel.backends (loadBalancerService lb) (snd second)) = 1%nat).
Proof.
  split.
  - intros k. unfold AddBackend.
    destruct (ipvs.CreateDestination (loadBalancerService lb)
                (add_descriptor address port) k) as [[e|] k']; simpl;
      [|reflexivity].
    destruct (strings.Contains e "file exists"); reflexivity.
  - intros t ds Hwf Hsvc. cbv zeta.
    pose proof (wf_lookup _ ds t Hwf Hsvc) as Hds.
    destruct (AddBackend_adds lb address port t ds Hsvc Hds)
      as (ds1 & Hsvc1 & Hin1 & Hone1).
    split; [now rewrite (AddBackend_table lb address port t ds Hsvc)|].
    rewrite (AddBackend_table lb address port _ ds1 Hsvc1), Hin1. simpl.
    split; [reflexivity|].
    unfold kernel.backends. now rewrite Hsvc1.
Qed.

Lemma AddBackend_duplicate_tolerant_witness :
  let lb := {| loadBalancerService := service_descriptor "10.0.0.1" 6443;
               Port := 6443 |} in
  let t : kernel.Table := [(service_descriptor "10.0.0.1" 6443, [])] in
  kernel.wf t = true
  /\ kernel.lookup (loadBalancerService lb) t = Some []
  /\ fst (AddBackend lb "10.0.0.10" 6443 t) = None
  /\ fst (AddBackend lb "10.0.0.10" 6443
            (snd (AddBackend lb "10.0.0.10" 6443 t))) = None
  /\ kernel.count_backends (add_descriptor "10.0.0.10" 6443)
       (kernel.backends (loadBalancerService lb)
          (snd (AddBackend lb "10.0.0.10" 6443
                  (snd (AddBackend lb "10.0.0.10" 6443 t))))) = 1%nat.
Proof.
  cbv zeta.
  pose (lb := {| loadBalancerService := service_descriptor "10.0.0.1" 6443;
                 Port := 6443 |}).
  pose (t := [(service_descriptor "10.0.0.1" 6443, [])] : kernel.Table).
  assert (Hwf : kernel.wf t = true) by reflexivity.
  assert (Hsvc : kernel.lookup (loadBalancerService lb) t = Some [])
    by reflexivity.
  split; [exact Hwf|]. split; [exact Hsvc|].
  destruct (AddBackend_duplicate_tolerant (C := kernel.client)
              lb "10.0.0.10" 6443) as [_ H].
  exact (H t [] Hwf Hsvc).
Defined.

(** C4.  [RemoveBackend] returns every failure of [RemoveDestination] to
    the caller as an error; on the forwarding table, removing an
    (address, port) that is not in the service's backend set, because it
    was never added or was removed before, returns the table's "not found"
    failure as an error and leaves the table, and with it the backend set,
    as it was. *)
Theorem RemoveBackend_missing_is_error {A : Addressing} {K : Type}
  {C : ipvs.Client K} (lb : IPVSLoadBalancer) (address : string) (port : Z) :
  (forall k : K,
     RemoveBackend lb address port k =
     (match fst (ipvs.RemoveDestination (loadBalancerService lb)
                   (remove_descriptor address port) k) with
      | None => None
      | Some e => Some ("error removing backend: " ++ e)%string
      end,
      snd (ipvs.RemoveDestination (loadBalancerService lb)
             (remove_descriptor address port) k)))
  /\
  (forall t : kernel.Table,
     kernel.count_backends (remove_descriptor address port)
       (kernel.backends (loadBalancerService lb) t) = 0%nat ->
     RemoveBackend lb address port t =
     (Some ("error removing backend: "
            ++ match kernel.lookup (loadBalancerService lb) t with
               | Some _ => kernel.ENOENT
               | None => kernel.ESRCH
               end)%string, t)).
Proof.
  split.
  - intros k. unfold RemoveBackend.
    destruct (ipvs.RemoveDestination (loadBalancerService lb)
                (remove_descriptor address port) k) as [[e|] k'];
      reflexivity.
  - intros t Hmissing. apply has_destination_count in Hmissing.
    unfold kernel.backends in Hmissing.
    unfold RemoveBackend. simpl. unfold kernel.RemoveDestination.
    destruct (kernel.lookup (loadBalancerService lb) t) as [ds|];
      [|reflexivity].
    now rewrite Hmissing.
Qed.

Lemma RemoveBackend_missing_is_error_witness :
  let lb := {| loadBalancerService := service_descriptor "10.0.0.1" 6443;
               Port := 6443 |} in
  let t : kernel.Table :=
    [(service_descriptor "10.0.0.1" 6443, [add_descriptor "10.0.0.11" 6443])] in
  kernel.count_backends (remove_descriptor "10.0.0.10" 6443)
    (kernel.backends (loadBalancerService lb) t) = 0%nat
  /\ RemoveBackend lb "10.0.0.10" 6443 t =
     (Some "error removing backend: no such file or directory"%string, t).
Proof.
  cbv zeta.
  pose (lb := {| loadBalancerService := service_descriptor "10.0.0.1" 6443;
                 Port := 6443 |}).
  pose (t := [(service_descriptor "10.0.0.1" 6443,
               [add_descriptor "10.0.0.11" 6443])] : kernel.Table).
  assert (Hmissing : kernel.count_backends (remove_descriptor "10.0.0.10" 6443)
                       (kernel.backends (loadBalancerService lb) t) = 0%nat)
    by reflexivity.
  split; [exact Hmissing|].
  destruct (RemoveBackend_missing_is_error (C := kernel.client)
              lb "10.0.0.10" 6443) as [_ H].
  exact (H t Hmissing).
Defined.

(** C5.  On a registered service, [AddBackend] followed by [RemoveBackend]
    for the same (address, port) both succeed and leave the backend set
    without an entry for the pair; a further [RemoveBackend] for it returns
    an error and changes nothing. *)
Theorem AddBackend_RemoveBackend_round_trip {A : Addressing}
  (lb : IPVSLoadBalancer) (address : string) (port : Z)
  (t : kernel.Table) (ds : list ipvs.Destination.t) :
  kernel.wf t = true ->
  kernel.lookup (loadBalancerService lb) t = Some ds ->
  let added := AddBackend lb address port t in
  let removed := RemoveBackend lb address port (snd added) in
  let again := RemoveBackend lb address port (snd removed) in
  fst added = None
  /\ fst removed = None
  /\ kernel.count_backends (add_descriptor address port)
       (kernel.backends (loadBalancerService lb) (snd removed)) = 0%nat
  /\ fst again =
     Some "error removing backend: no such file or directory"%string
  /\ snd again = snd removed.
Proof.
  intros Hwf Hsvc. cbv zeta.
  pose proof (wf_lookup _ ds t Hwf Hsvc) as Hds.
  destruct (AddBackend_adds lb address port t ds Hsvc Hds)
    as (ds1 & Hsvc1 & Hin1 & Hone1).
  split; [now rewrite (AddBackend_table lb address port t ds Hsvc)|].
  rewrite (RemoveBackend_table lb address port _ ds1 Hsvc1), Hin1. simpl.
  split; [reflexivity|].
  pose proof (lookup_attach _ ds1
                (kernel.unlink_destination (add_descriptor address port) ds1)
                _ Hsvc1) as Hsvc2.
  pose proof (count_backends_unlink _ ds1 Hin1) as Hless.
  assert (Hgone : kernel.count_backends (add_descriptor address port)
                    (kernel.unlink_destination
                       (add_descriptor address port) ds1) = 0%nat) by lia.
  split; [unfold kernel.backends; now rewrite Hsvc2|].
  rewrite (RemoveBackend_table lb address port _ _ Hsvc2).
  apply has_destination_count in Hgone. rewrite Hgone. now split.
Qed.

Lemma AddBackend_RemoveBackend_round_trip_witness :
  let lb := {| loadBalancerService := service_descriptor "10.0.0.1" 6443;
               Port := 6443 |} in
  let t : kernel.Table :=
    [(service_descriptor "10.0.0.1" 6443, [add_descriptor "10.0.0.11" 6443])] in
  kernel.wf t = true
  /\ kernel.lookup (loadBalancerService lb) t
     = Some [add_descriptor "10.0.0.11" 6443]
  /\ snd (RemoveBackend lb "10.0.0.10" 6443
            (snd (AddBackend lb "10.0.0.10" 6443 t))) = t
  /\ fst (RemoveBackend lb "10.0.0.10" 6443 t) =
     Some "error removing backend: no such file or directory"%string.
Proof.
  cbv zeta.
  pose (lb := {| loadBalancerService := service_descriptor "10.0.0.1" 6443;
                 Port := 6443 |}).
  pose (t := [(service_descriptor "10.0.0.1" 6443,
               [add_descriptor "10.0.0.11" 6443])] : kernel.Table).
  assert (Hwf : kernel.wf t = true) by reflexivity.
  assert (Hsvc : kernel.lookup (loadBalancerService lb) t
                 = Some [add_descriptor "10.0.0.11" 6443]) by reflexivity.
  split; [exact Hwf|]. split; [exact Hsvc|].
  split; [reflexivity|].
  destruct (AddBackend_RemoveBackend_round_trip lb "10.0.0.10" 6443 t _
              Hwf Hsvc) as (_ & _ & _ & Hagain & _).
  exact Hagain.
Defined.

(** ** What the calls carry *)

Section Calls.

Context {A : Addressing} {K : Type} {C : ipvs.Client K}.

Lemma AddBackend_calls (lb : IPVSLoadBalancer) (address : string) (port : Z)
  (k : K) :
  traced.calls (snd (snd (AddBackend lb address port (k, [])))) =
  [traced.CreateDestination (loadBalancerService lb)
     (add_descriptor address port)].
Proof.
  unfold AddBackend. simpl. unfold traced.record. simpl.
  destruct (ipvs.CreateDestination (loadBalancerService lb)
              (add_descriptor address port) k) as [[e|] k']; simpl;
    [|reflexivity].
  destruct (strings.Contains e "file exists"); reflexivity.
Qed.

Lemma RemoveBackend_calls (lb : IPVSLoadBalancer) (address : string)
  (port : Z) (k : K) :
  traced.calls (snd (snd (RemoveBackend lb address port (k, [])))) =
  [traced.RemoveDestination (loadBalancerService lb)
     (remove_descriptor address port)].
Proof.
  unfold RemoveBackend. simpl. unfold traced.record. simpl.
  destruct (ipvs.RemoveDestination (loadBalancerService lb)
              (remove_descriptor address port) k) as [[e|] k']; reflexivity.
Qed.

Lemma RemoveIPVSLB_calls (lb : IPVSLoadBalancer) (k : K) :
  traced.calls (snd (snd (RemoveIPVSLB lb (k, [])))) =
  [traced.RemoveService (loadBalancerService lb)].
Proof.
  unfold RemoveIPVSLB. simpl. unfold traced.record. simpl.
  destruct (ipvs.RemoveService (loadBalancerService lb) k) as [[e|] k'];
    reflexivity.
Qed.

(** Once the client exists, [CreateService] is called, whatever the
    arguments are. *)
Lemma NewIPVSLB_first_calls (address : string) (port : Z) (k : K) :
  match fst (ipvs.New k) with
  | Some _ =>
    traced.calls (snd (snd (NewIPVSLB address port (k, [])))) = [traced.New]
  | None =>
    exists rest,
      traced.calls (snd (snd (NewIPVSLB address port (k, [])))) =
      traced.New
        :: traced.CreateService (service_descriptor address port) :: rest
  end.
Proof.
  unfold NewIPVSLB. simpl. unfold traced.record. simpl.
  destruct (ipvs.New k) as [[e|] k1]; simpl; [reflexivity|].
  destruct (ipvs.CreateService (service_descriptor address port) k1)
    as [[e|] k2]; simpl; [|now eexists].
  destruct (strings.Contains e "file exists"); simpl; [|now eexists].
  destruct (ipvs.RemoveService (service_descriptor address port) k2)
    as [[e3|] k3]; simpl; [now eexists|].
  destruct (ipvs.CreateService (service_descriptor address port) k3)
    as [[e4|] k4]; simpl; now eexists.
Qed.

End Calls.

(** On an empty table [NewIPVSLB] succeeds, whatever the address text and
    the port are. *)
Lemma NewIPVSLB_empty_table {A : Addressing} (address : string) (port : Z) :
  NewIPVSLB address port ([] : kernel.Table) =
  ((Some {| loadBalancerService := service_descriptor address port;
            Port := port |}, None),
   [(service_descriptor address port, [])]).
Proof. reflexivity. Qed.

(** ** The descriptors *)

(** C6 (amended).  Whatever the address text is, an IPv4 address, an IPv6
    address or a text that does not parse, the service descriptor and both
    backend descriptors carry the family [INET] and the address
    [NewIP (ParseIP address)], and [NewIPVSLB] hands the descriptor to
    [CreateService] as soon as it has a client; so the family written
    matches the family of the input address exactly when that address is
    an IPv4 one. *)
Theorem descriptors_are_INET {A : Addressing} {K : Type} {C : ipvs.Client K}
  (address : string) (port : Z) :
  ipvs.Service.Family (service_descriptor address port) = ipvs.INET
  /\ ipvs.Destination.Family (add_descriptor address port) = ipvs.INET
  /\ ipvs.Destination.Family (remove_descriptor address port) = ipvs.INET
  /\ ipvs.Service.Address (service_descriptor address port)
     = NewIP (ParseIP address)
  /\ ipvs.Destination.Address (add_descriptor address port)
     = NewIP (ParseIP address)
  /\ ipvs.Destination.Address (remove_descriptor address port)
     = NewIP (ParseIP address)
  /\ (forall k : K,
        match fst (ipvs.New k) with
        | Some _ =>
          traced.calls (snd (snd (NewIPVSLB address port (k, []))))
          = [traced.New]
        | None =>
          exists rest,
            traced.calls (snd (snd (NewIPVSLB address port (k, [])))) =
            traced.New
              :: traced.CreateService (service_descriptor address port)
              :: rest
        end)
  /\ family_matches address port = is_IPv4 (ParseIP address).
Proof.
  repeat (split; [reflexivity|]).
  split; [intros k; apply NewIPVSLB_first_calls|].
  unfold family_matches, family_of, is_IPv4. simpl.
  destruct (net.To4 (ParseIP address)); [|reflexivity].
  destruct (Nat.eqb (List.length (ParseIP address)) net.IPv6len); reflexivity.
Qed.

(** C6 as the specification words it fails: "fd00::1" parses to an IPv6
    address, and the descriptors built for it carry [INET]. *)
Lemma family_follows_address_fails :
  ~ family_follows_address (A := textual.addressing) "fd00::1" 6443.
Proof.
  intros H.
  destruct (H ipvs.INET6 eq_refl) as [Hfam _].
  vm_compute in Hfam. discriminate Hfam.
Qed.

(** C7.  Every service descriptor [NewIPVSLB] hands to the client has
    protocol TCP and the round-robin scheduler, and the backend descriptor
    [AddBackend] hands over has weight 1 and the [Local] forwarding method,
    whatever the caller passes. *)
Theorem descriptors_fixed_fields {A : Addressing} {K : Type}
  {C : ipvs.Client K} (address : string) (port : Z) :
  ipvs.Service.Protocol (service_descriptor address port) = ipvs.TCP
  /\ ipvs.Service.Scheduler (service_descriptor address port) = "rr"%string
  /\ ipvs.Destination.Weight (add_descriptor address port) = 1
  /\ ipvs.Destination.FwdMethod (add_descriptor address port) = ipvs.Local
  /\ (forall k : K,
        Forall (fun c =>
                  match c with
                  | traced.CreateService svc
                  | traced.RemoveService svc =>
                    svc = service_descriptor address port
                  | _ => c = traced.New
                  end)
          (traced.calls (snd (snd (NewIPVSLB address port (k, []))))))
  /\ (forall (lb : IPVSLoadBalancer) (k : K),
        traced.calls (snd (snd (AddBackend lb address port (k, [])))) =
        [traced.CreateDestination (loadBalancerService lb)
           (add_descriptor address port)]).
Proof.
  repeat (split; [reflexivity|]). split.
  - intros k.
    destruct (NewIPVSLB_calls address port k) as [H|[H|[H|H]]];
      cbv zeta in H; rewrite H; repeat constructor.
  - intros lb k. apply AddBackend_calls.
Qed.

(** C9.  The descriptors carry the port argument reduced modulo 2^16,
    which is what [uint16] does to a Go [int]; no operation looks at the
    port before calling the client, so a port outside 1..65535 reaches the
    forwarding table truncated instead of being refused. *)
Theorem port_is_truncated {A : Addressing} {K : Type} {C : ipvs.Client K}
  (address : string) (port : Z) :
  ipvs.Service.Port (service_descriptor address port) = port mod 2 ^ 16
  /\ ipvs.Destination.Port (add_descriptor address port) = port mod 2 ^ 16
  /\ ipvs.Destination.Port (remove_descriptor address port) = port mod 2 ^ 16
  /\ 0 <= port mod 2 ^ 16 < 2 ^ 16
  /\ (forall n : Z,
        service_descriptor address (port + n * 2 ^ 16)
        = service_descriptor address port
        /\ add_descriptor address (port + n * 2 ^ 16)
           = add_descriptor address port
        /\ remove_descriptor address (port + n * 2 ^ 16)
           = remove_descriptor address port)
  /\ (forall k : K,
        match fst (ipvs.New k) with
        | Some _ =>
          traced.calls (snd (snd (NewIPVSLB address port (k, []))))
          = [traced.New]
        | None =>
          exists rest,
            traced.calls (snd (snd (NewIPVSLB address port (k, [])))) =
            traced.New
              :: traced.CreateService (service_descriptor address port)
              :: rest
        end)
  /\ (forall (lb : IPVSLoadBalancer) (k : K),
        traced.calls (snd (snd (AddBackend lb address port (k, [])))) =
        [traced.CreateDestination (loadBalancerService lb)
           (add_descriptor address port)]
        /\ traced.calls (snd (snd (RemoveBackend lb address port (k, [])))) =
           [traced.RemoveDestination (loadBalancerService lb)
              (remove_descriptor address port)]).
Proof.
  repeat (split; [reflexivity|]).
  split; [apply Z.mod_pos_bound; reflexivity|].
  split.
  { intros n.
    unfold service_descriptor, add_descriptor, remove_descriptor, uint16.
    change 65536 with (2 ^ 16). now rewrite Z.mod_add by discriminate. }
  split; [intros k; apply NewIPVSLB_first_calls|].
  intros lb k. split; [apply AddBackend_calls | apply RemoveBackend_calls].
Qed.

(** C10.  The descriptor [RemoveBackend] passes to [RemoveDestination] has
    the address, port, family and weight of the one [AddBackend] passes to
    [CreateDestination], and the zero forwarding method where the latter has
    [Local]: the two differ as descriptors and share the fields that name
    the backend. *)
Theorem remove_descriptor_vs_add_descriptor {A : Addressing} {K : Type}
  {C : ipvs.Client K} (address : string) (port : Z) :
  ipvs.Destination.Address (remove_descriptor address port)
  = ipvs.Destination.Address (add_descriptor address port)
  /\ ipvs.Destination.Port (remove_descriptor address port)
     = ipvs.Destination.Port (add_descriptor address port)
  /\ ipvs.Destination.Family (remove_descriptor address port)
     = ipvs.Destination.Family (add_descriptor address port)
  /\ ipvs.Destination.Weight (remove_descriptor address port)
     = ipvs.Destination.Weight (add_descriptor address port)
  /\ ipvs.Destination.FwdMethod (remove_descriptor address port) = 0
  /\ ipvs.Destination.FwdMethod (add_descriptor address port) = ipvs.Local
  /\ Z.eqb (ipvs.Destination.FwdMethod (remove_descriptor address port))
       (ipvs.Destination.FwdMethod (add_descriptor address port)) = false
  /\ (forall (lb : IPVSLoadBalancer) (k : K),
        traced.calls (snd (snd (AddBackend lb address port (k, [])))) =
        [traced.CreateDestination (loadBalancerService lb)
           (add_descriptor address port)]
        /\ traced.calls (snd (snd (RemoveBackend lb address port (k, [])))) =
           [traced.RemoveDestination (loadBalancerService lb)
              (remove_descriptor address port)]).
Proof.
  repeat (split; [reflexivity|]).
  intros lb k. split; [apply AddBackend_calls | apply RemoveBackend_calls].
Qed.

(** ** Failures *)


(** A text that does not parse is not a failure of its own: [ParseIP]
    gives [nil], [NewIP] turns it into the all-zero address, and the
    service is registered under that address. *)
Lemma NewIPVSLB_unparseable_address :
  ParseIP "not an address" = []
  /\ NewIPVSLB "not an address" 6443 ([] : kernel.Table) =
     ((Some {| loadBalancerService :=
                 {| ipvs.Service.Family := ipvs.INET;
                    ipvs.Service.Protocol := ipvs.TCP;
                    ipvs.Service.Port := 6443;
                    ipvs.Service.Address := repeat 0 16;
                    ipvs.Service.Scheduler := "rr" |};
               Port := 6443 |}, None),
      [({| ipvs.Service.Family := ipvs.INET;
           ipvs.Service.Protocol := ipvs.TCP;
           ipvs.Service.Port := 6443;
           ipvs.Service.Address := repeat 0 16;
           ipvs.Service.Scheduler := "rr" |}, [])]).
Proof. split; reflexivity. Qed.

(** ** The table's invariants are kept

    The hypotheses [kernel.wf t = true] above are met by every table the
    four operations can build from the empty one. *)

Section Distinct.

Context {X : Type} (same : X -> X -> bool).
Hypothesis same_sym : forall a b, same a b = same b a.

Lemma distinct_snoc (l : list X) (a : X) :
  kernel.distinct same l = true ->
  existsb (same a) l = false ->
  kernel.distinct same (l ++ [a]) = true.
Proof.
  induction l as [|x l IH]; simpl; [reflexivity|].
  intros Hd Ha.
  apply andb_true_iff in Hd as [Hx Hl].
  apply orb_false_iff in Ha as [Hax Hal].
  rewrite existsb_app. simpl. rewrite orb_false_r.
  apply negb_true_iff in Hx. rewrite Hx, (same_sym x a), Hax. simpl.
  now apply IH.
Qed.

End Distinct.

Lemma same_service_sym (a b : ipvs.Service.t) :
  kernel.same_service a b = kernel.same_service b a.
Proof.
  destruct (kernel.same_service a b) eqn:Hab;
    destruct (kernel.same_service b a) eqn:Hba; try reflexivity.
  - apply same_service_spec in Hab as (Hf & Hp & Ha & Hq).
    assert (kernel.same_service b a = true) as H
      by (apply same_service_spec; repeat split; congruence).
    congruence.
  - apply same_service_spec in Hba as (Hf & Hp & Ha & Hq).
    assert (kernel.same_service a b = true) as H
      by (apply same_service_spec; repeat split; congruence).
    congruence.
Qed.

Lemma attach_keys (svc : ipvs.Service.t) (ds : list ipvs.Destination.t)
  (t : kernel.Table) :
  map fst (kernel.attach svc ds t) = map fst t.
Proof.
  induction t as [|[s d] t IH]; simpl; [reflexivity|].
  destruct (kernel.same_service svc s); simpl; [reflexivity|].
  now rewrite IH.
Qed.

Lemma attach_backends (svc : ipvs.Service.t) (ds : list ipvs.Destination.t)
  (t : kernel.Table) :
  kernel.distinct kernel.same_destination ds = true ->
  forallb (fun e => kernel.distinct kernel.same_destination (snd e)) t = true ->
  forallb (fun e => kernel.distinct kernel.same_destination (snd e))
    (kernel.attach svc ds t) = true.
Proof.
  intros Hds. induction t as [|[s d] t IH]; simpl; [reflexivity|].
  intros H. apply andb_true_iff in H as [Hd Ht].
  destruct (kernel.same_service svc s); simpl.
  - now rewrite Hds, Ht.
  - now rewrite Hd, IH.
Qed.

Lemma unlink_keys (svc x : ipvs.Service.t) (t : kernel.Table) :
  existsb (kernel.same_service x) (map fst t) = false ->
  existsb (kernel.same_service x) (map fst (kernel.unlink svc t)) = false.
Proof.
  induction t as [|[s d] t IH]; simpl; [reflexivity|].
  intros H. apply orb_false_iff in H as [Hx Ht].
  destruct (kernel.same_service svc s); simpl; [exact Ht|].
  now rewrite Hx, IH.
Qed.

Lemma unlink_destination_keys (dst x : ipvs.Destination.t)
  (ds : list ipvs.Destination.t) :
  existsb (kernel.same_destination x) ds = false ->
  existsb (kernel.same_destination x) (kernel.unlink_destination dst ds)
  = false.
Proof.
  induction ds as [|d ds IH]; simpl; [reflexivity|].
  intros H. apply orb_false_iff in H as [Hx Ht].
  destruct (kernel.same_destination dst d); simpl; [exact Ht|].
  now rewrite Hx, IH.
Qed.

Lemma unlink_destination_distinct (dst : ipvs.Destination.t)
  (ds : list ipvs.Destination.t) :
  kernel.distinct kernel.same_destination ds = true ->
  kernel.distinct kernel.same_destination (kernel.unlink_destination dst ds)
  = true.
Proof.
  induction ds as [|d ds IH]; simpl; [reflexivity|].
  intros H. apply andb_true_iff in H as [Hd Ht].
  destruct (kernel.same_destination dst d); simpl; [exact Ht|].
  apply negb_true_iff in Hd.
  now rewrite (unlink_destination_keys dst d ds Hd), IH.
Qed.

Lemma wf_empty : kernel.wf [] = true.
Proof. reflexivity. Qed.

Lemma wf_CreateService (svc : ipvs.Service.t) (t : kernel.Table) :
  kernel.wf t = true -> kernel.wf (snd (kernel.CreateService svc t)) = true.
Proof.
  intros Hwf. unfold kernel.CreateService.
  destruct (kernel.lookup svc t) eqn:E; simpl; [exact Hwf|].
  unfold kernel.wf in *. apply andb_true_iff in Hwf as [Hk Hb].
  rewrite map_app, forallb_app. simpl.
  rewrite Hb. apply lookup_existsb in E.
  now rewrite (distinct_snoc _ same_service_sym _ svc Hk E).
Qed.

Lemma wf_RemoveService (svc : ipvs.Service.t) (t : kernel.Table) :
  kernel.wf t = true -> kernel.wf (snd (kernel.RemoveService svc t)) = true.
Proof.
  intros Hwf. unfold kernel.RemoveService.
  destruct (kernel.lookup svc t) eqn:E; simpl; [|exact Hwf].
  clear E. unfold kernel.wf in *.
  induction t as [|[s d] t IH]; simpl in *; [reflexivity|].
  apply andb_true_iff in Hwf as [Hk Hb].
  apply andb_true_iff in Hk as [Hs Hk].
  apply andb_true_iff in Hb as [Hd Hb].
  destruct (kernel.same_service svc s); simpl.
  - now rewrite Hk, Hb.
  - assert (kernel.distinct kernel.same_service
              (map fst (kernel.unlink svc t))
            && forallb
                 (fun e => kernel.distinct kernel.same_destination (snd e))
                 (kernel.unlink svc t) = true) as H
      by (apply IH; now rewrite Hk, Hb).
    apply andb_true_iff in H as [Hk' Hb'].
    apply negb_true_iff in Hs.
    now rewrite (unlink_keys svc s t Hs), Hk', Hd, Hb'.
Qed.

Lemma wf_CreateDestination (svc : ipvs.Service.t) (dst : ipvs.Destination.t)
  (t : kernel.Table) :
  kernel.wf t = true ->
  kernel.wf (snd (kernel.CreateDestination svc dst t)) = true.
Proof.
  intros Hwf. unfold kernel.CreateDestination.
  destruct (kernel.lookup svc t) as [ds|] eqn:E; simpl; [|exact Hwf].
  destruct (kernel.has_destination dst ds) eqn:Hin; simpl; [exact Hwf|].
  pose proof (wf_lookup svc ds t Hwf E) as Hds.
  unfold kernel.wf in *. apply andb_true_iff in Hwf as [Hk Hb].
  rewrite attach_keys, Hk. simpl.
  apply attach_backends; [|exact Hb].
  now apply (distinct_snoc _ same_destination_sym).
Qed.

Lemma wf_RemoveDestination (svc : ipvs.Service.t) (dst : ipvs.Destination.t)
  (t : kernel.Table) :
  kernel.wf t = true ->
  kernel.wf (snd (kernel.RemoveDestination svc dst t)) = true.
Proof.
  intros Hwf. unfold kernel.RemoveDestination.
  destruct (kernel.lookup svc t) as [ds|] eqn:E; simpl; [|exact Hwf].
  destruct (kernel.has_destination dst ds) eqn:Hin; simpl; [|exact Hwf].
  pose proof (wf_lookup svc ds t Hwf E) as Hds.
  unfold kernel.wf in *. apply andb_true_iff in Hwf as [Hk Hb].
  rewrite attach_keys, Hk. simpl.
  apply attach_backends; [|exact Hb].
  now apply unlink_destination_distinct.
Qed.

(** ** The specification's scenario, run on the forwarding table *)

Lemma scenario :
  let '(lb, err0, t0) := NewIPVSLB "10.0.0.1" 6443 ([] : kernel.Table) in
  match lb with
  | None => False
  | Some lb =>
    let '(err1, t1) := AddBackend lb "10.0.0.10" 6443 t0 in
    let '(err2, t2) := AddBackend lb "10.0.0.10" 6443 t1 in
    let '(err3, t3) := AddBackend lb "10.0.0.11" 6443 t2 in
    let '(err4, t4) := RemoveBackend lb "10.0.0.10" 6443 t3 in
    let '(err5, t5) := RemoveBackend lb "10.0.0.10" 6443 t4 in
    let '(err6, t6) := RemoveIPVSLB lb t5 in
    [err0; err1; err2; err3; err4; err6] = [None; None; None; None; None; None]
    /\ err5 = Some "error removing backend: no such file or directory"%string
    /\ t2 = t1
    /\ kernel.backends (loadBalancerService lb) t3
       = [add_descriptor "10.0.0.10" 6443; add_descriptor "10.0.0.11" 6443]
    /\ kernel.backends (loadBalancerService lb) t4
       = [add_descriptor "10.0.0.11" 6443]
    /\ t5 = t4
    /\ t6 = []
  end.
Proof. vm_compute. repeat split; reflexivity. Qed.

(** * Further properties of the four operations *)

(** ** The "file exists" test *)

Lemma prefix_spec (p s : string) :
  String.prefix p s = true <-> exists post, s = (p ++ post)%string.
Proof.
  revert s. induction p as [|a p IH]; intros s; simpl.
  - split; [intros _; now exists s | intros _; now destruct s].
  - destruct s as [|b s]; simpl.
    + split; [discriminate | intros [post H]; discriminate H].
    + destruct (ascii_dec a b) as [->|Hab].
      * rewrite IH. split; intros [post H]; exists post.
        -- now rewrite H.
        -- now injection H.
      * split; [discriminate|].
        intros [post H]. injection H as H1 H2. congruence.
Qed.

(** X1.  [strings.Contains], as lines 58 and 102 use it, is the substring
    relation: it answers [true] exactly when the text splits into some
    text, the sought one, and some text. *)
Theorem Contains_substring (s substr : string) :
  strings.Contains s substr = true <->
  exists before after, s = (before ++ substr ++ after)%string.
Proof.
  induction s as [|c s IH].
  - change (strings.Contains EmptyString substr)
      with (String.prefix substr EmptyString || false).
    rewrite orb_false_r, prefix_spec. split.
    + intros [post H]. exists EmptyString, post. exact H.
    + intros (before & after & H).
      destruct before; [now exists after | discriminate H].
  - change (strings.Contains (String c s) substr)
      with (String.prefix substr (String c s) || strings.Contains s substr).
    rewrite orb_true_iff, prefix_spec, IH. split.
    + intros [[post H]|(before & after & H)].
      * exists EmptyString, post. exact H.
      * exists (String c before), after. simpl. now rewrite H.
    + intros (before & after & H). destruct before as [|b before].
      * left. now exists after.
      * right. simpl in H. injection H as _ H. now exists before, after.
Qed.

Lemma Contains_substring_witness :
  strings.Contains "netlink receive: file exists" "file exists" = true.
Proof.
  apply (Contains_substring "netlink receive: file exists" "file exists").
  exists "netlink receive: "%string, EmptyString. reflexivity.
Defined.

(** A character other than "f" in front of a text neither makes nor
    unmakes an occurrence of "file exists". *)
Lemma Contains_cons_other (c : ascii) (s : string) :
  c <> "f"%char ->
  strings.Contains (String c s) "file exists" =
  strings.Contains s "file exists".
Proof.
  intros Hc.
  change (strings.Contains (String c s) "file exists")
    with (String.prefix "file exists" (String c s)
          || strings.Contains s "file exists").
  destruct (String.prefix "file exists" (String c s)) eqn:E; [|reflexivity].
  apply prefix_spec in E as [post E]. simpl in E.
  injection E as E _. congruence.
Qed.

Ltac skip_context :=
  unfold fmt.Errorf, has_marker; simpl;
  repeat (rewrite Contains_cons_other by discriminate);
  try reflexivity.

(** None of the six texts the file puts in front of a client's error holds
    an "f", so wrapping changes nothing about the "file exists" test. *)
Lemma Errorf_keeps_marker (e : string) :
  has_marker (fmt.Errorf "error creating IPVS client: " e)
  = has_marker (Some e)
  /\ has_marker (fmt.Errorf "error creating IPVS service: " e)
     = has_marker (Some e)
  /\ has_marker (fmt.Errorf "error re-creating IPVS service: " e)
     = has_marker (Some e)
  /\ has_marker (fmt.Errorf "error removing existing IPVS service: " e)
     = has_marker (Some e)
  /\ has_marker (fmt.Errorf "error creating backend: " e)
     = has_marker (Some e)
  /\ has_marker (fmt.Errorf "error removing backend: " e)
     = has_marker (Some e).
Proof. repeat split; skip_context. Qed.

(** ** Errors as the caller sees them *)

Section Errors.

Context {A : Addressing} {K : Type} {C : ipvs.Client K}.

(** X2.  [AddBackend] never returns an "already exists" error: such answers are
    swallowed, and the text put in front of the others cannot make one. *)
Theorem AddBackend_never_reports_conflict (lb : IPVSLoadBalancer)
  (address : string) (port : Z) (k : K) :
  has_marker (fst (AddBackend lb address port k)) = false.
Proof.
  unfold AddBackend.
  destruct (ipvs.CreateDestination (loadBalancerService lb)
              (add_descriptor address port) k) as [[e|] k']; simpl;
    [|reflexivity].
  destruct (strings.Contains e "file exists") eqn:E; simpl; [reflexivity|].
  destruct (Errorf_keeps_marker e) as (_ & _ & _ & _ & H & _).
  first [exact E | rewrite H; exact E].
Qed.

(** X3.  The errors of [RemoveIPVSLB] and [RemoveBackend] pass the
    "file exists" test exactly when the client's own answer does, so a
    caller can test them the way the file tests the client's. *)
Theorem removal_errors_keep_marker (lb : IPVSLoadBalancer)
  (address : string) (port : Z) (k : K) :
  has_marker (fst (RemoveIPVSLB lb k))
  = has_marker (fst (ipvs.RemoveService (loadBalancerService lb) k))
  /\ has_marker (fst (RemoveBackend lb address port k))
     = has_marker (fst (ipvs.RemoveDestination (loadBalancerService lb)
                          (remove_descriptor address port) k)).
Proof.
  split.
  - unfold RemoveIPVSLB.
    destruct (ipvs.RemoveService (loadBalancerService lb) k) as [[e|] k'];
      [|reflexivity].
    destruct (Errorf_keeps_marker e) as (_ & _ & _ & H & _). exact H.
  - unfold RemoveBackend.
    destruct (ipvs.RemoveDestination (loadBalancerService lb)
                (remove_descriptor address port) k) as [[e|] k'];
      [|reflexivity].
    destruct (Errorf_keeps_marker e) as (_ & _ & _ & _ & _ & H). exact H.
Qed.

(** X4.  When [ipvs.New] fails, [NewIPVSLB] returns that failure as
    "error creating IPVS client: ..." and calls nothing else: no service is
    created or removed. *)
Theorem NewIPVSLB_without_client (address : string) (port : Z)
  (k k1 : K) (e : string) :
  ipvs.New k = (Some e, k1) ->
  NewIPVSLB address port (k, []) =
  ((None, Some ("error creating IPVS client: " ++ e)%string),
   (k1, [(traced.New, Some e)])).
Proof.
  intros HNew. unfold NewIPVSLB. simpl. unfold traced.record. simpl.
  now rewrite HNew.
Qed.

(** X5.  An error of [NewIPVSLB] that passes the "file exists" test comes from
    the client's construction or from the recovery path: the first
    [CreateService] alone never produces one. *)
Theorem NewIPVSLB_conflict_error (address : string) (port : Z) (k : K) :
  let run := NewIPVSLB address port (k, []) in
  has_marker (snd (fst run)) = true ->
  has_marker (fst (ipvs.New k)) = true
  \/ traced.count traced.is_RemoveService (snd (snd run)) = 1%nat.
Proof.
  cbv zeta. unfold NewIPVSLB. simpl. unfold traced.record. simpl.
  destruct (ipvs.New k) as [[e|] k1]; simpl.
  { intros H. left.
    destruct (Errorf_keeps_marker e) as (H1 & _).
    unfold has_marker, fmt.Errorf in *. simpl in *. congruence. }
  destruct (ipvs.CreateService (service_descriptor address port) k1)
    as [[e|] k2]; simpl; [|discriminate].
  destruct (strings.Contains e "file exists") eqn:E; simpl.
  - intros _. right.
    destruct (ipvs.RemoveService (service_descriptor address port) k2)
      as [[e3|] k3]; simpl; [reflexivity|].
    destruct (ipvs.CreateService (service_descriptor address port) k3)
      as [[e4|] k4]; reflexivity.
  - intros H.
    destruct (Errorf_keeps_marker e) as (_ & H1 & _).
    unfold has_marker, fmt.Errorf in *. simpl in *. congruence.
Qed.

(** X6.  What [NewIPVSLB] calls, whatever the client answers: at most four
    calls, at most two [CreateService] and one [RemoveService], never a
    call on a backend; and [RemoveService] is called exactly when the
    first [CreateService] was answered with "file exists". *)
Theorem NewIPVSLB_call_discipline (address : string) (port : Z) (k : K) :
  let log := snd (snd (NewIPVSLB address port (k, []))) in
  (List.length log <= 4)%nat
  /\ (traced.count traced.is_CreateService log <= 2)%nat
  /\ (traced.count traced.is_RemoveService log <= 1)%nat
  /\ traced.count is_destination_call log = 0%nat
  /\ Nat.eqb (traced.count traced.is_RemoveService log) 1
     = has_marker (snd (nth 1 log (traced.New, None))).
Proof.
  cbv zeta. unfold NewIPVSLB. simpl. unfold traced.record. simpl.
  destruct (ipvs.New k) as [[e|] k1]; simpl.
  { unfold traced.count. simpl. repeat split; lia. }
  destruct (ipvs.CreateService (service_descriptor address port) k1)
    as [[e|] k2]; simpl.
  2:{ unfold traced.count. simpl. repeat split; lia. }
  destruct (strings.Contains e "file exists") eqn:E; simpl.
  2:{ unfold traced.count. simpl. rewrite E. repeat split; lia. }
  destruct (ipvs.RemoveService (service_descriptor address port) k2)
    as [[e3|] k3]; simpl.
  { unfold traced.count. simpl. rewrite E. repeat split; lia. }
  destruct (ipvs.CreateService (service_descriptor address port) k3)
    as [[e4|] k4]; simpl;
    unfold traced.count; simpl; rewrite E; repeat split; lia.
Qed.

(** X7.  The handle of a successful [NewIPVSLB] carries the descriptor that was
    registered and the port as the caller gave it, and every later
    operation on the handle names that descriptor to the client. *)
Theorem NewIPVSLB_handle (address : string) (port : Z) (k k' : K)
  (lb : IPVSLoadBalancer) (err : error) :
  NewIPVSLB address port k = ((Some lb, err), k') ->
  err = None
  /\ loadBalancerService lb = service_descriptor address port
  /\ Port lb = port
  /\ (forall k2 : K,
        traced.calls (snd (snd (RemoveIPVSLB lb (k2, [])))) =
        [traced.RemoveService (service_descriptor address port)])
  /\ (forall (a : string) (p : Z) (k2 : K),
        traced.calls (snd (snd (AddBackend lb a p (k2, [])))) =
        [traced.CreateDestination (service_descriptor address port)
           (add_descriptor a p)]
        /\ traced.calls (snd (snd (RemoveBackend lb a p (k2, [])))) =
           [traced.RemoveDestination (service_descriptor address port)
              (remove_descriptor a p)]).
Proof.
  intros Hrun.
  assert (Hlb : err = None
                /\ lb = {| loadBalancerService :=
                             service_descriptor address port;
                           Port := port |}).
  { revert Hrun. unfold NewIPVSLB.
    destruct (ipvs.New k) as [[e|] k1]; [discriminate|].
    destruct (ipvs.CreateService (service_descriptor address port) k1)
      as [[e|] k2].
    2:{ intros H. injection H as <- <- _. now split. }
    destruct (strings.Contains e "file exists"); [|discriminate].
    destruct (ipvs.RemoveService (service_descriptor address port) k2)
      as [[e3|] k3]; [discriminate|].
    destruct (ipvs.CreateService (service_descriptor address port) k3)
      as [[e4|] k4]; [discriminate|].
    intros H. injection H as <- <- _. now split. }
  destruct Hlb as [-> ->]. repeat (split; [reflexivity|]).
  split.
  - intros k2. apply RemoveIPVSLB_calls.
  - intros a p k2.
    split; [apply AddBackend_calls | apply RemoveBackend_calls].
Qed.

End Errors.

Lemma NewIPVSLB_without_client_witness :
  NewIPVSLB "10.0.0.1" 6443
    ([Some "netlink: permission denied"%string], []) =
  ((None,
    Some "error creating IPVS client: netlink: permission denied"%string),
   ([], [(traced.New, Some "netlink: permission denied"%string)])).
Proof.
  exact (NewIPVSLB_without_client (C := scripted.client) "10.0.0.1" 6443
           [Some "netlink: permission denied"%string] []
           "netlink: permission denied" eq_refl).
Defined.

Lemma NewIPVSLB_conflict_error_witness :
  let script := [None; Some "file exists"%string; None;
                 Some "netlink receive: file exists"%string] in
  has_marker (snd (fst (NewIPVSLB "10.0.0.1" 6443 (script, [])))) = true
  /\ traced.count traced.is_RemoveService
       (snd (snd (NewIPVSLB "10.0.0.1" 6443 (script, [])))) = 1%nat.
Proof.
  cbv zeta.
  pose (script := [None; Some "file exists"%string; None;
                   Some "netlink receive: file exists"%string]).
  assert (H : has_marker (snd (fst (NewIPVSLB "10.0.0.1" 6443 (script, []))))
              = true) by reflexivity.
  split; [exact H|].
  destruct (NewIPVSLB_conflict_error (C := scripted.client)
              "10.0.0.1" 6443 script H) as [Hnew|Hremove].
  - discriminate Hnew.
  - exact Hremove.
Defined.

Lemma NewIPVSLB_handle_witness :
  let svc := service_descriptor "10.0.0.1" 71979 in
  NewIPVSLB "10.0.0.1" 71979 ([] : kernel.Table)
  = ((Some {| loadBalancerService := svc; Port := 71979 |}, None),
     [(svc, [])])
  /\ Port {| loadBalancerService := svc; Port := 71979 |} = 71979
  /\ ipvs.Service.Port svc = 6443.
Proof.
  cbv zeta.
  assert (Hrun : NewIPVSLB "10.0.0.1" 71979 ([] : kernel.Table)
                 = ((Some {| loadBalancerService :=
                               service_descriptor "10.0.0.1" 71979;
                             Port := 71979 |}, None),
                    [(service_descriptor "10.0.0.1" 71979, [])]))
    by reflexivity.
  split; [exact Hrun|].
  destruct (NewIPVSLB_handle (C := kernel.client) "10.0.0.1" 71979 _ _ _ _
              Hrun) as (_ & _ & Hport & _).
  split; [exact Hport | reflexivity].
Defined.

(** ** Ports in range *)

(** X8.  The descriptors carry the port as given exactly when it lies in
    0..65535; the three descriptors always agree on it. *)
Theorem port_kept_iff_in_range {A : Addressing} (address : string) (port : Z) :
  (ipvs.Service.Port (service_descriptor address port) = port
   <-> 0 <= port <= 65535)
  /\ ipvs.Destination.Port (add_descriptor address port)
     = ipvs.Service.Port (service_descriptor address port)
  /\ ipvs.Destination.Port (remove_descriptor address port)
     = ipvs.Service.Port (service_descriptor address port).
Proof.
  split; [|split; reflexivity].
  simpl. unfold uint16. split.
  - intros H. pose proof (Z.mod_pos_bound port 65536 eq_refl). lia.
  - intros H. apply Z.mod_small. lia.
Qed.

Lemma port_kept_iff_in_range_witness :
  0 <= 6443 <= 65535
  /\ ipvs.Service.Port (service_descriptor "10.0.0.1" 6443) = 6443.
Proof.
  assert (H : 0 <= 6443 <= 65535) by lia.
  split; [exact H|].
  destruct (port_kept_iff_in_range "10.0.0.1" 6443) as [[_ Hkept] _].
  exact (Hkept H).
Defined.

(** ** The operations on the forwarding table *)

Lemma unlink_absent (svc : ipvs.Service.t) (t : kernel.Table) :
  kernel.lookup svc t = None -> kernel.unlink svc t = t.
Proof.
  induction t as [|[s d] t IH]; simpl; [reflexivity|].
  destruct (kernel.same_service svc s); [discriminate|].
  intros H. now rewrite IH.
Qed.

Lemma unlink_register (svc : ipvs.Service.t) (t : kernel.Table) :
  kernel.lookup svc t = None ->
  kernel.unlink svc (t ++ [(svc, [])]) = t.
Proof.
  induction t as [|[s d] t IH]; simpl.
  - now rewrite same_service_refl.
  - destruct (kernel.same_service svc s); [discriminate|].
    intros H. now rewrite IH.
Qed.

Lemma lookup_attach_other (svc svc' : ipvs.Service.t)
  (ds : list ipvs.Destination.t) (t : kernel.Table) :
  kernel.same_service svc' svc = false ->
  kernel.lookup svc' (kernel.attach svc ds t) = kernel.lookup svc' t.
Proof.
  intros Hother. induction t as [|[s d] t IH]; simpl; [reflexivity|].
  destruct (kernel.same_service svc s) eqn:E; simpl.
  - rewrite (same_service_sym svc' svc) in Hother.
    rewrite (same_service_congr svc s svc' E) in Hother.
    rewrite (same_service_sym s svc') in Hother.
    now rewrite Hother.
  - now rewrite IH.
Qed.

Lemma count_backends_unlink_other (dst d : ipvs.Destination.t)
  (ds : list ipvs.Destination.t) :
  kernel.same_destination d dst = false ->
  kernel.count_backends d (kernel.unlink_destination dst ds)
  = kernel.count_backends d ds.
Proof.
  intros Hother. unfold kernel.count_backends.
  induction ds as [|x ds IH]; simpl; [reflexivity|].
  destruct (kernel.same_destination dst x) eqn:E; simpl.
  - rewrite (same_destination_sym d dst) in Hother.
    rewrite (same_destination_congr dst x d E) in Hother.
    rewrite (same_destination_sym x d) in Hother.
    now rewrite Hother.
  - destruct (kernel.same_destination d x); simpl; now rewrite IH.
Qed.

Lemma lookup_unlink_other (svc svc' : ipvs.Service.t) (t : kernel.Table) :
  kernel.same_service svc' svc = false ->
  kernel.lookup svc' (kernel.unlink svc t) = kernel.lookup svc' t.
Proof.
  intros Hother. induction t as [|[s d] t IH]; simpl; [reflexivity|].
  destruct (kernel.same_service svc s) eqn:E; simpl.
  - rewrite (same_service_sym svc' svc) in Hother.
    rewrite (same_service_congr svc s svc' E) in Hother.
    rewrite (same_service_sym s svc') in Hother.
    now rewrite Hother.
  - now rewrite IH.
Qed.

Lemma lookup_register_other (svc svc' : ipvs.Service.t) (t : kernel.Table) :
  kernel.same_service svc' svc = false ->
  kernel.lookup svc' (t ++ [(svc, [])]) = kernel.lookup svc' t.
Proof.
  intros Hother. induction t as [|[s d] t IH]; simpl.
  - now rewrite Hother.
  - now rewrite IH.
Qed.

(** [NewIPVSLB] on a well-formed table, in full. *)
Lemma NewIPVSLB_on_table {A : Addressing} (address : string)
  (port : Z) (t : kernel.Table) :
  kernel.wf t = true ->
  NewIPVSLB address port t =
  ((Some {| loadBalancerService := service_descriptor address port;
            Port := port |}, None),
   kernel.unlink (service_descriptor address port) t
   ++ [(service_descriptor address port, [])]).
Proof.
  intros Hwf.
  destruct (kernel.lookup (service_descriptor address port) t) as [ds|] eqn:E.
  - now apply (NewIPVSLB_recovers address port t ds).
  - rewrite (unlink_absent _ t E).
    unfold NewIPVSLB. simpl. unfold kernel.CreateService. now rewrite E.
Qed.

(** X9.  On a well-formed table [NewIPVSLB] always succeeds: whatever was
    registered under the tuple is replaced by a fresh descriptor without
    backends, and every other service keeps its backends. *)
Theorem NewIPVSLB_succeeds_on_table {A : Addressing} (address : string)
  (port : Z) (t : kernel.Table) :
  kernel.wf t = true ->
  fst (NewIPVSLB address port t)
  = (Some {| loadBalancerService := service_descriptor address port;
             Port := port |}, None)
  /\ kernel.lookup (service_descriptor address port)
       (snd (NewIPVSLB address port t)) = Some []
  /\ (forall svc : ipvs.Service.t,
        kernel.same_service svc (service_descriptor address port) = false ->
        kernel.lookup svc (snd (NewIPVSLB address port t))
        = kernel.lookup svc t).
Proof.
  intros Hwf. rewrite (NewIPVSLB_on_table address port t Hwf). cbn [fst snd].
  split; [reflexivity|]. split.
  - apply lookup_register. apply lookup_unlink.
    unfold kernel.wf in Hwf. now apply andb_true_iff in Hwf as [H _].
  - intros svc Hother.
    rewrite (lookup_register_other _ svc _ Hother).
    now apply lookup_unlink_other.
Qed.

Lemma NewIPVSLB_succeeds_on_table_witness :
  let other := service_descriptor "10.0.0.2" 443 in
  let svc := service_descriptor "10.0.0.1" 6443 in
  let t : kernel.Table :=
    [(svc, [add_descriptor "10.0.0.10" 6443]);
     (other, [add_descriptor "10.0.0.20" 443])] in
  kernel.wf t = true
  /\ kernel.lookup svc (snd (NewIPVSLB "10.0.0.1" 6443 t)) = Some []
  /\ snd (NewIPVSLB "10.0.0.1" 6443 t)
     = [(other, [add_descriptor "10.0.0.20" 443]); (svc, [])].
Proof.
  cbv zeta.
  pose (t := [(service_descriptor "10.0.0.1" 6443,
               [add_descriptor "10.0.0.10" 6443]);
              (service_descriptor "10.0.0.2" 443,
               [add_descriptor "10.0.0.20" 443])] : kernel.Table).
  assert (Hwf : kernel.wf t = true) by reflexivity.
  split; [exact Hwf|].
  destruct (NewIPVSLB_succeeds_on_table "10.0.0.1" 6443 t Hwf)
    as (_ & Hfresh & _).
  split; [exact Hfresh | reflexivity].
Defined.

(** X10.  Each of the four operations takes a well-formed table to a
    well-formed table, whether it succeeds or fails. *)
Theorem operations_keep_table_wf {A : Addressing} (lb : IPVSLoadBalancer)
  (address : string) (port : Z) (t : kernel.Table) :
  kernel.wf t = true ->
  kernel.wf (snd (NewIPVSLB address port t)) = true
  /\ kernel.wf (snd (RemoveIPVSLB lb t)) = true
  /\ kernel.wf (snd (AddBackend lb address port t)) = true
  /\ kernel.wf (snd (RemoveBackend lb address port t)) = true.
Proof.
  intros Hwf. split; [|split; [|split]].
  - rewrite (NewIPVSLB_on_table address port t Hwf). simpl.
    pose proof (wf_RemoveService (service_descriptor address port) t Hwf)
      as Hremoved.
    pose proof (wf_CreateService (service_descriptor address port)
                  (kernel.unlink (service_descriptor address port) t))
      as Hcreated.
    unfold kernel.wf in Hwf. apply andb_true_iff in Hwf as [Hkeys _].
    unfold kernel.CreateService in Hcreated.
    rewrite (lookup_unlink _ t Hkeys) in Hcreated. simpl in Hcreated.
    apply Hcreated.
    unfold kernel.RemoveService in Hremoved.
    destruct (kernel.lookup (service_descriptor address port) t) eqn:E;
      simpl in Hremoved; [exact Hremoved|].
    now rewrite (unlink_absent _ t E).
  - pose proof (wf_RemoveService (loadBalancerService lb) t Hwf) as H.
    unfold RemoveIPVSLB. simpl.
    destruct (kernel.RemoveService (loadBalancerService lb) t) as [[e|] t'];
      exact H.
  - pose proof (wf_CreateDestination (loadBalancerService lb)
                  (add_descriptor address port) t Hwf) as H.
    unfold AddBackend. simpl.
    destruct (kernel.CreateDestination (loadBalancerService lb)
                (add_descriptor address port) t) as [[e|] t'];
      [|exact H].
    destruct (strings.Contains e "file exists"); exact H.
  - pose proof (wf_RemoveDestination (loadBalancerService lb)
                  (remove_descriptor address port) t Hwf) as H.
    unfold RemoveBackend. simpl.
    destruct (kernel.RemoveDestination (loadBalancerService lb)
                (remove_descriptor address port) t) as [[e|] t'];
      exact H.
Qed.

Lemma operations_keep_table_wf_witness :
  let lb := {| loadBalancerService := service_descriptor "10.0.0.1" 6443;
               Port := 6443 |} in
  let t : kernel.Table :=
    [(service_descriptor "10.0.0.1" 6443, [add_descriptor "10.0.0.10" 6443])] in
  kernel.wf t = true
  /\ kernel.wf (snd (AddBackend lb "10.0.0.10" 6443 t)) = true.
Proof.
  cbv zeta.
  pose (lb := {| loadBalancerService := service_descriptor "10.0.0.1" 6443;
                 Port := 6443 |}).
  pose (t := [(service_descriptor "10.0.0.1" 6443,
               [add_descriptor "10.0.0.10" 6443])] : kernel.Table).
  assert (Hwf : kernel.wf t = true) by reflexivity.
  split; [exact Hwf|].
  destruct (operations_keep_table_wf lb "10.0.0.10" 6443 t Hwf)
    as (_ & _ & H & _).
  exact H.
Defined.

(** X11.  [NewIPVSLB] followed by [RemoveIPVSLB] on the handle it returned: the
    teardown succeeds and leaves the table without any entry for the
    tuple; what the table held under other tuples is as before, so a table
    that had no entry for the tuple is restored exactly. *)
Theorem NewIPVSLB_RemoveIPVSLB_round_trip {A : Addressing}
  (address : string) (port : Z) (t : kernel.Table) :
  kernel.wf t = true ->
  let created := NewIPVSLB address port t in
  let lb := {| loadBalancerService := service_descriptor address port;
               Port := port |} in
  fst created = (Some lb, None)
  /\ RemoveIPVSLB lb (snd created)
     = (None, kernel.unlink (service_descriptor address port) t)
  /\ kernel.count_services (service_descriptor address port)
       (kernel.unlink (service_descriptor address port) t) = 0%nat
  /\ (kernel.lookup (service_descriptor address port) t = None ->
      RemoveIPVSLB lb (snd created) = (None, t)).
Proof.
  intros Hwf. cbv zeta.
  rewrite (NewIPVSLB_on_table address port t Hwf). cbn [fst snd].
  set (svc := service_descriptor address port).
  assert (Hkeys : kernel.distinct kernel.same_service (map fst t) = true).
  { unfold kernel.wf in Hwf. now apply andb_true_iff in Hwf as [H _]. }
  pose proof (lookup_unlink svc t Hkeys) as Hgone.
  assert (Hteardown :
            RemoveIPVSLB {| loadBalancerService := svc; Port := port |}
              (kernel.unlink svc t ++ [(svc, [])])
            = (None, kernel.unlink svc t)).
  { unfold RemoveIPVSLB. simpl. unfold kernel.RemoveService.
    rewrite (lookup_register svc _ Hgone).
    now rewrite (unlink_register svc _ Hgone). }
  split; [reflexivity|]. split; [exact Hteardown|].
  split; [now apply lookup_None_count|].
  intros Habsent. etransitivity; [exact Hteardown|].
  now rewrite (unlink_absent svc t Habsent).
Qed.

Lemma NewIPVSLB_RemoveIPVSLB_round_trip_witness :
  let t : kernel.Table :=
    [(service_descriptor "10.0.0.2" 443, [add_descriptor "10.0.0.20" 443])] in
  kernel.wf t = true
  /\ kernel.lookup (service_descriptor "10.0.0.1" 6443) t = None
  /\ RemoveIPVSLB
       {| loadBalancerService := service_descriptor "10.0.0.1" 6443;
          Port := 6443 |}
       (snd (NewIPVSLB "10.0.0.1" 6443 t)) = (None, t).
Proof.
  cbv zeta.
  pose (t := [(service_descriptor "10.0.0.2" 443,
               [add_descriptor "10.0.0.20" 443])] : kernel.Table).
  assert (Hwf : kernel.wf t = true) by reflexivity.
  assert (Habsent : kernel.lookup (service_descriptor "10.0.0.1" 6443) t
                    = None) by reflexivity.
  split; [exact Hwf|]. split; [exact Habsent|].
  destruct (NewIPVSLB_RemoveIPVSLB_round_trip "10.0.0.1" 6443 t Hwf)
    as (_ & _ & _ & H).
  exact (H Habsent).
Defined.

(** X12.  Once the service is no longer registered, as after a [RemoveIPVSLB]
    that succeeded on a well-formed table, every operation on the handle
    fails with the table's "no such process" and changes nothing. *)
Theorem operations_after_teardown_fail {A : Addressing}
  (lb : IPVSLoadBalancer) (address : string) (port : Z) :
  (forall t : kernel.Table,
     kernel.lookup (loadBalancerService lb) t = None ->
     AddBackend lb address port t
     = (Some "error creating backend: no such process"%string, t)
     /\ RemoveBackend lb address port t
        = (Some "error removing backend: no such process"%string, t)
     /\ RemoveIPVSLB lb t
        = (Some "error removing existing IPVS service: no such process"%string,
           t))
  /\ (forall (t : kernel.Table) (ds : list ipvs.Destination.t),
        kernel.wf t = true ->
        kernel.lookup (loadBalancerService lb) t = Some ds ->
        fst (RemoveIPVSLB lb t) = None
        /\ kernel.lookup (loadBalancerService lb) (snd (RemoveIPVSLB lb t))
           = None).
Proof.
  split.
  - intros t Habsent. split; [|split].
    + unfold AddBackend. simpl. unfold kernel.CreateDestination.
      now rewrite Habsent.
    + unfold RemoveBackend. simpl. unfold kernel.RemoveDestination.
      now rewrite Habsent.
    + unfold RemoveIPVSLB. simpl. unfold kernel.RemoveService.
      now rewrite Habsent.
  - intros t ds Hwf Hsvc.
    unfold RemoveIPVSLB. simpl. unfold kernel.RemoveService.
    rewrite Hsvc. simpl. split; [reflexivity|].
    apply lookup_unlink. unfold kernel.wf in Hwf.
    now apply andb_true_iff in Hwf as [H _].
Qed.

Lemma operations_after_teardown_fail_witness :
  let lb := {| loadBalancerService := service_descriptor "10.0.0.1" 6443;
               Port := 6443 |} in
  let t : kernel.Table :=
    [(service_descriptor "10.0.0.1" 6443, [add_descriptor "10.0.0.10" 6443])] in
  kernel.wf t = true
  /\ RemoveIPVSLB lb t = (None, [])
  /\ AddBackend lb "10.0.0.10" 6443 []
     = (Some "error creating backend: no such process"%string, []).
Proof.
  cbv zeta.
  pose (lb := {| loadBalancerService := service_descriptor "10.0.0.1" 6443;
                 Port := 6443 |}).
  pose (t := [(service_descriptor "10.0.0.1" 6443,
               [add_descriptor "10.0.0.10" 6443])] : kernel.Table).
  assert (Hwf : kernel.wf t = true) by reflexivity.
  assert (Hsvc : kernel.lookup (loadBalancerService lb) t
                 = Some [add_descriptor "10.0.0.10" 6443]) by reflexivity.
  split; [exact Hwf|]. split; [reflexivity|].
  destruct (operations_after_teardown_fail lb "10.0.0.10" 6443) as [H1 H2].
  destruct (H2 t _ Hwf Hsvc) as [_ Hgone].
  destruct (H1 _ Hgone) as [Hadd _]. exact Hadd.
Defined.

(** X13.  [AddBackend] and [RemoveBackend] touch one pair of one service: every
    other (address, port) is in the backend set as often as before, and
    every other service has the backends it had. *)
Theorem backend_operations_are_local {A : Addressing}
  (lb : IPVSLoadBalancer) (address : string) (port : Z) (t : kernel.Table) :
  (forall d : ipvs.Destination.t,
     kernel.same_destination d (add_descriptor address port) = false ->
     kernel.count_backends d
       (kernel.backends (loadBalancerService lb)
          (snd (AddBackend lb address port t)))
     = kernel.count_backends d (kernel.backends (loadBalancerService lb) t)
     /\ kernel.count_backends d
          (kernel.backends (loadBalancerService lb)
             (snd (RemoveBackend lb address port t)))
        = kernel.count_backends d
            (kernel.backends (loadBalancerService lb) t))
  /\ (forall svc : ipvs.Service.t,
        kernel.same_service svc (loadBalancerService lb) = false ->
        kernel.lookup svc (snd (AddBackend lb address port t))
        = kernel.lookup svc t
        /\ kernel.lookup svc (snd (RemoveBackend lb address port t))
           = kernel.lookup svc t).
Proof.
  destruct (kernel.lookup (loadBalancerService lb) t) as [ds|] eqn:Hsvc.
  - rewrite (AddBackend_table lb address port t ds Hsvc).
    rewrite (RemoveBackend_table lb address port t ds Hsvc).
    split.
    + intros d Hother. unfold kernel.backends. split.
      * destruct (kernel.has_destination (add_descriptor address port) ds);
          simpl; [reflexivity|].
        rewrite (lookup_attach _ ds _ t Hsvc), Hsvc, count_backends_app.
        unfold kernel.count_backends at 2. simpl. rewrite Hother. simpl. lia.
      * destruct (kernel.has_destination (add_descriptor address port) ds);
          simpl; [|reflexivity].
        rewrite (lookup_attach _ ds _ t Hsvc), Hsvc.
        now apply count_backends_unlink_other.
    + intros svc Hother. split.
      * destruct (kernel.has_destination (add_descriptor address port) ds);
          simpl; [reflexivity|].
        now apply lookup_attach_other.
      * destruct (kernel.has_destination (add_descriptor address port) ds);
          simpl; [|reflexivity].
        now apply lookup_attach_other.
  - assert (Hadd : snd (AddBackend lb address port t) = t).
    { unfold AddBackend. simpl. unfold kernel.CreateDestination.
      now rewrite Hsvc. }
    assert (Hremove : snd (RemoveBackend lb address port t) = t).
    { unfold RemoveBackend. simpl. unfold kernel.RemoveDestination.
      now rewrite Hsvc. }
    rewrite Hadd, Hremove. now repeat split.
Qed.

Lemma backend_operations_are_local_witness :
  let lb := {| loadBalancerService := service_descriptor "10.0.0.1" 6443;
               Port := 6443 |} in
  let t : kernel.Table :=
    [(service_descriptor "10.0.0.1" 6443, [add_descriptor "10.0.0.11" 6443])] in
  kernel.same_destination (add_descriptor "10.0.0.11" 6443)
    (add_descriptor "10.0.0.10" 6443) = false
  /\ kernel.count_backends (add_descriptor "10.0.0.11" 6443)
       (kernel.backends (loadBalancerService lb)
          (snd (AddBackend lb "10.0.0.10" 6443 t)))
     = kernel.count_backends (add_descriptor "10.0.0.11" 6443)
         (kernel.backends (loadBalancerService lb) t).
Proof.
  cbv zeta.
  pose (lb := {| loadBalancerService := service_descriptor "10.0.0.1" 6443;
                 Port := 6443 |}).
  pose (t := [(service_descriptor "10.0.0.1" 6443,
               [add_descriptor "10.0.0.11" 6443])] : kernel.Table).
  assert (Hother : kernel.same_destination (add_descriptor "10.0.0.11" 6443)
                     (add_descriptor "10.0.0.10" 6443) = false)
    by reflexivity.
  split; [exact Hother|].
  destruct (backend_operations_are_local lb "10.0.0.10" 6443 t) as [H _].
  destruct (H _ Hother) as [Hadd _]. exact Hadd.
Defined.
